(** * Price-estimation ABCI skill: the behaviours of
      [packages/valory/skills/price_estimation_abci/behaviours.py]

    A shallow embedding of the consensus behaviours of the skill: the
    finite-state machine that chains the nine phases, and the phase
    behaviours themselves, written as trees of the interactions a Python
    generator has with its surroundings (period state, consensus substrate,
    signing oracle, chain client). *)

From Stdlib Require Import Strings.Ascii Strings.String Strings.Byte ZArith.
From stdpp Require Import base numbers option strings list sorting gmap fin_maps fin_sets.

Local Open Scope Z_scope.

(** ** Python exceptions and fallible computations *)

Inductive exn : Type :=
| ValueError (msg : string)
| KeyError (key : string)
| TypeError
| IndexError
| BinasciiError.

Inductive result (A : Type) : Type :=
| Ok (a : A)
| Err (e : exn).
Arguments Ok {A} a.
Arguments Err {A} e.

#[global] Instance result_ret : MRet result := @Ok.
#[global] Instance result_bind : MBind result := λ A B f m,
  match m with
  | Ok a => f a
  | Err e => Err e
  end.

(** [enforce(cond, msg, exception_class=ValueError)] of [aea.exceptions]. *)
Definition enforce (cond : bool) (msg : string) : result unit :=
  if cond then Ok () else Err (ValueError msg).

(** ** Hexadecimal strings: [binascii.unhexlify] and [bytes.hex] *)

Abbreviation bytes := (list byte).

Definition hex_digit (c : ascii) : option N :=
  let n := N_of_ascii c in
  if ((48 <=? n) && (n <=? 57))%N then Some (n - 48)%N
  else if ((97 <=? n) && (n <=? 102))%N then Some (n - 87)%N
  else if ((65 <=? n) && (n <=? 70))%N then Some (n - 55)%N
  else None.

(** [binascii.unhexlify]: two hexadecimal digits per byte; an odd length or a
    character that is no hexadecimal digit raises [binascii.Error] (here
    [None]). *)
Fixpoint unhexlify (s : string) : option bytes :=
  match s with
  | EmptyString => Some []
  | String _ EmptyString => None
  | String hi (String lo rest) =>
      h ← hex_digit hi;
      l ← hex_digit lo;
      b ← Byte.of_N (16 * h + l);
      bs ← unhexlify rest;
      Some (b :: bs)
  end.

Definition hex_char (n : N) : ascii :=
  ascii_of_N (if (n <? 10)%N then 48 + n else 87 + n)%N.

(** [bytes.hex()]: two lower-case hexadecimal digits per byte. *)
Fixpoint hexlify (bs : bytes) : string :=
  match bs with
  | [] => EmptyString
  | b :: rest =>
      let n := Byte.to_N b in
      String (hex_char (n / 16)) (String (hex_char (n mod 16)) (hexlify rest))
  end.

(** [HexBytes.hex()]: the hexadecimal digits behind the prefix [0x]. *)
Definition HexBytes_hex (bs : bytes) : string := String "0" (String "x" (hexlify bs)).

(** The slice [s[n:]] of a Python string. *)
Fixpoint str_drop (n : nat) (s : string) : string :=
  match n, s with
  | O, _ => s
  | S _, EmptyString => EmptyString
  | S n', String _ rest => str_drop n' rest
  end.

(** ** The finite-state machine of [aea.skills.behaviours.FSMBehaviour]

    The part of the library class the skill relies on: registered states by
    name, the initial and the current state, and the transition table
    [source -> event -> destination].  The skill registers no final state, so
    the set of final states stays empty and is left out. *)

Record FSMBehaviour (State : Type) : Type := mkFSM {
  name_to_state : gmap string State;
  initial_state : option string;
  current : option string;
  transitions : gmap string (gmap (option string) string)
}.
Arguments mkFSM {State}.
Arguments name_to_state {State}.
Arguments initial_state {State}.
Arguments current {State}.
Arguments transitions {State}.

Section FSM.
Context {State : Type}.

(** [FSMBehaviour.__init__] *)
Definition FSMBehaviour_init : FSMBehaviour State :=
  mkFSM ∅ None None ∅.

(** [FSMBehaviour.register_state]: a name that is already registered raises
    [ValueError]. *)
Definition register_state (self : FSMBehaviour State) (name : string)
    (state : State) (initial : bool) : result (FSMBehaviour State) :=
  if decide (is_Some (name_to_state self !! name))
  then Err (ValueError "State name already existing.")
  else
    let states := <[name := state]> (name_to_state self) in
    Ok (if initial
        then mkFSM states (Some name) (Some name) (transitions self)
        else mkFSM states (initial_state self) (current self) (transitions self)).

(** [self.transitions.get(source, {}).get(event, None)] *)
Definition next_state (self : FSMBehaviour State) (source : string)
    (event : option string) : option string :=
  default ∅ (transitions self !! source) !! event.

(** [FSMBehaviour.register_transition]: a second transition from the same
    source on the same event raises [ValueError]. *)
Definition register_transition (self : FSMBehaviour State)
    (source destination : string) (event : option string) :
    result (FSMBehaviour State) :=
  if decide (is_Some (transitions self !! source)
             ∧ is_Some (default ∅ (transitions self !! source) !! event))
  then Err (ValueError "Transition already registered.")
  else
    let row := <[event := destination]> (default ∅ (transitions self !! source)) in
    Ok (mkFSM (name_to_state self) (initial_state self) (current self)
              (<[source := row]> (transitions self))).

(** The tail of [FSMBehaviour.act] once the current state is done and has
    raised [event]: the machine moves along the transition table, and
    stops ([current = None]) where the table has no entry. *)
Definition act_done (self : FSMBehaviour State) (event : option string) :
    FSMBehaviour State :=
  match current self with
  | None => self
  | Some cur =>
      mkFSM (name_to_state self) (initial_state self)
            (next_state self cur event) (transitions self)
  end.
End FSM.

(** A [for] loop over a list whose body may raise. *)
Fixpoint for_each {A S : Type} (body : S → A → result S) (l : list A) (s : S) :
    result S :=
  match l with
  | [] => Ok s
  | x :: rest => s' ← body s x; for_each body rest s'
  end.

(** Indexing [l[i]] for [i >= 0]. *)
Definition list_get {A : Type} (l : list A) (i : nat) : result A :=
  match l !! i with
  | Some x => Ok x
  | None => Err IndexError
  end.

(** ** [PriceEstimationConsensusBehaviour] *)

Section RegisterStates.
(** A state class is known by its [state_id]; [DONE_EVENT] is the constant
    imported from [abstract_round_abci.behaviour_utils]. *)
Context {StateCls : Type} (state_id : StateCls → string) (DONE_EVENT : string).

Definition _register_state (self : FSMBehaviour StateCls) (state_cls : StateCls)
    (initial : bool) : result (FSMBehaviour StateCls) :=
  let name := state_id state_cls in
  register_state self (state_id state_cls) state_cls initial.

Definition _register_states (self : FSMBehaviour StateCls)
    (state_classes : list StateCls) : result (FSMBehaviour StateCls) :=
  _ ← enforce (negb (length state_classes =? 0)%nat) "empty list of state classes";
  first ← list_get state_classes 0;
  self ← _register_state self first true;
  self ← for_each (λ self state_cls, _register_state self state_cls false)
                  (drop 1 state_classes) self;
  for_each
    (λ self index,
       before ← list_get state_classes index;
       after ← list_get state_classes (index + 1);
       register_transition self (state_id before) (state_id after) (Some DONE_EVENT))
    (seq 0 (length state_classes - 1)) self.
End RegisterStates.

(** The nine behaviour classes of the module and their [state_id]s. *)
Inductive behaviour_cls : Type :=
| InitialDelayState
| RegistrationBehaviour
| DeploySafeBehaviour
| ObserveBehaviour
| EstimateBehaviour
| TransactionHashBehaviour
| SignatureBehaviour
| FinalizeBehaviour
| EndBehaviour.

Definition state_id (c : behaviour_cls) : string :=
  match c with
  | InitialDelayState => "initial_delay"
  | RegistrationBehaviour => "register"
  | DeploySafeBehaviour => "deploy_safe"
  | ObserveBehaviour => "observe"
  | EstimateBehaviour => "estimate"
  | TransactionHashBehaviour => "tx_hash"
  | SignatureBehaviour => "sign"
  | FinalizeBehaviour => "finalize"
  | EndBehaviour => "end"
  end.

(** The list of classes [setup] registers, in the order of the source. *)
Definition setup_state_classes : list behaviour_cls :=
  [ InitialDelayState; RegistrationBehaviour; DeploySafeBehaviour;
    ObserveBehaviour; EstimateBehaviour; TransactionHashBehaviour;
    SignatureBehaviour; FinalizeBehaviour; EndBehaviour ].

(** [PriceEstimationConsensusBehaviour.setup], on a freshly constructed
    behaviour. *)
Definition setup (DONE_EVENT : string) : result (FSMBehaviour behaviour_cls) :=
  _register_states state_id DONE_EVENT FSMBehaviour_init setup_state_classes.

(** The phases the machine goes through when every state it activates ends
    with [event]: the current state, then the one [act_done] moves to, and
    so on for at most [fuel] states. *)
Fixpoint phases_run {State : Type} (fuel : nat) (self : FSMBehaviour State)
    (event : option string) : list string :=
  match fuel, current self with
  | S fuel', Some cur => cur :: phases_run fuel' (act_done self event) event
  | _, _ => []
  end.


(** ** Consensus parameters *)

(** The consensus parameters the skill is configured with
    ([params.consensus_params]); the class lives in the abstract round
    skill. *)
Record ConsensusParams : Type := mkConsensusParams {
  max_participants : nat
}.

(** The least integer not below [a / b], for [b > 0]. *)
Definition ceil_div (a b : Z) : Z := - ((- a) / b).

(** Modelled from the spec: the property [ConsensusParams.two_thirds_threshold]
    of the abstract round skill, which is not part of these sources.  Spec,
    4.4: [threshold = ceil(2 * N / 3)], with [N] the number of participants
    the consensus parameters are set up for. *)
Definition two_thirds_threshold (cp : ConsensusParams) : Z :=
  ceil_div (2 * Z.of_nat (max_participants cp)) 3.

(** ** Data of the behaviours *)

(** The round classes of [models.rounds] the behaviours name. *)
Inductive round_cls : Type :=
| RegistrationRound
| DeploySafeRound
| CollectObservationRound
| EstimateConsensusRound
| TxHashRound
| CollectSignatureRound
| FinalizationRound
| ConsensusReachedRound.

(** The response of the signing oracle, as far as the behaviour reads it:
    [response.signed_message.body]. *)
Record SignedMessage : Type := mkSignedMessage { body : string }.
Record SigningMessage : Type := mkSigningMessage { signed_message : SignedMessage }.

(** The [SafeTx] object of the multisig library, with the attributes the
    behaviours read or write; [recommended_gas] stands for the result of the
    method of that name. *)
Record SafeTx : Type := mkSafeTx {
  to : string;
  value : Z;
  data : bytes;
  operation : Z;
  safe_tx_hash : bytes;
  signatures : bytes;
  gas_price : Z;
  recommended_gas : Z
}.

(** The assignment [safe_tx.signatures = final_signature]. *)
Definition set_signatures (safe_tx : SafeTx) (final_signature : bytes) : SafeTx :=
  mkSafeTx (to safe_tx) (value safe_tx) (data safe_tx) (operation safe_tx)
           (safe_tx_hash safe_tx) final_signature (gas_price safe_tx)
           (recommended_gas safe_tx).

Section Behaviours.
(** Python floats (prices, the initial delay) are only passed around. *)
Variable float : Type.

(** [Web3.toChecksumAddress]: the same address in checksum spelling. *)
Variable toChecksumAddress : string → string.

(** Modelled from the spec: the method [BaseState._get_safe_tx(sender, data)]
    of the abstract behaviour, which is not part of these sources.  Spec, 3:
    the Safe Transaction is built locally and is a deterministic function
    of the period state; here a function of the safe contract address
    recorded there and of the two arguments of the call. *)
Variable _get_safe_tx : string → string → bytes → SafeTx.

(** Values that end up in log lines and in transaction dictionaries. *)
Inductive pyvalue : Type :=
| PyStr (s : string)
| PyInt (n : Z)
| PyBytes (b : bytes)
| PyFloat (x : float)
| PyFloats (l : list float)
| PyDict (d : gmap string string).

Record ObservationPayload : Type := mkObservationPayload {
  observation_sender : string;
  observation : float
}.

(** The payload classes of [models.payloads]; the first argument of each
    constructor is the sender. *)
Inductive payload : Type :=
| RegistrationPayload (sender : string)
| DeploySafePayload (sender : string) (safe_contract_address : string)
| Observation (p : ObservationPayload)
| EstimatePayload (sender : string) (estimate : float)
| TransactionHashPayload (sender : string) (tx_hash : string)
| SignaturePayload (sender : string) (signature : string)
| FinalizationTxPayload (sender : string) (tx_hash : string).

Definition payload_sender (p : payload) : string :=
  match p with
  | RegistrationPayload s | DeploySafePayload s _ | EstimatePayload s _
  | TransactionHashPayload s _ | SignaturePayload s _
  | FinalizationTxPayload s _ => s
  | Observation o => observation_sender o
  end.

(** The replicated period state, as the behaviours read it. *)
Record PeriodState : Type := mkPeriodState {
  participants : gset string;
  safe_sender_address : string;
  safe_contract_address : string;
  observations : list ObservationPayload;
  most_voted_estimate : float;
  encoded_estimate : bytes;
  safe_tx_hash_hex : string;
  participant_to_signature : gmap string string;
  final_tx_hash : string
}.

(** Modelled from the spec: the property [PeriodState.sorted_addresses] of
    [models.rounds], which is not part of these sources.  Spec, 4.9: the
    signer addresses in ascending order; Python compares strings
    character by character, which is [String.le]. *)
Definition sorted_addresses (ps : PeriodState) : list string :=
  merge_sort String.le (elements (participants ps)).

Record Params : Type := mkParams {
  initial_delay : float;
  ethereum_node_url : string;
  currency_id : string;
  convert_id : string;
  consensus_params : ConsensusParams
}.

(** [self.context]: the agent's address, the skill parameters, the
    identifier of the price API and the aggregation function of the
    estimator. *)
Record SkillContext : Type := mkSkillContext {
  agent_address : string;
  params : Params;
  price_api_id : string;
  estimator_aggregate : list float → float
}.

(** *** Interactions

    What a behaviour asks of its surroundings, with the type of the
    answer.  [ReadPeriodState] is a read of [self.period_state]; the
    period state changes only while the behaviour is suspended, so the
    model reads it once per stretch of code between two suspension points
    of a method. *)
Inductive action : Type → Type :=
| LogStart (state : string) : action unit
| LogEnd (state : string) : action unit
| LoggerInfo (template : string) (args : list pyvalue) : action unit
| ReadPeriodState : action PeriodState
| Sleep (seconds : float) : action unit
| SendTransaction (p : payload) (stop_condition : round_cls) : action unit
| WaitUntilRoundEnd (round : round_cls) : action unit
| SetDone : action unit
| Yield : action unit
| GetPrice (currency convert : string) : action float
| GetDeploySafeTx (ethereum_node_url sender : string) (owners : list string)
    (threshold : Z) : action (gmap string pyvalue * string)
| SendRawTransaction (tx : gmap string pyvalue) : action string
| SendSigningRequest (raw_message : bytes) (is_deprecated_mode : bool) : action unit
| WaitForMessage : action SigningMessage
| SafeTxCall (safe_tx : SafeTx) (tx_sender_address : string) : action (result Z)
| EthGasPrice : action Z
| BuildTransaction (safe_tx : SafeTx) (tx_parameters : gmap string pyvalue) :
    action (gmap string pyvalue)
| EthGetTransactionCount (address : string) : action Z.

(** A generator method: it returns, raises, or performs an action and
    goes on with the answer. *)
Inductive prog (R : Type) : Type :=
| Ret (r : R)
| Raise (e : exn)
| Vis {X : Type} (a : action X) (k : X → prog R).
Arguments Ret {R} r.
Arguments Raise {R} e.
Arguments Vis {R X} a k.

Fixpoint prog_bind {A B : Type} (f : A → prog B) (m : prog A) : prog B :=
  match m with
  | Ret r => f r
  | Raise e => Raise e
  | Vis a k => Vis a (λ x, prog_bind f (k x))
  end.

#[local] Instance prog_mret : MRet prog := @Ret.
#[local] Instance prog_mbind : MBind prog := @prog_bind.

Definition trigger {X : Type} (a : action X) : prog X := Vis a Ret.

(** One observed step: an action and the answer it got. *)
Inductive obs : Type :=
| Obs {X : Type} (a : action X) (x : X).

Inductive outcome (R : Type) : Type :=
| Returned (r : R)
| Raised (e : exn).
Arguments Returned {R} r.
Arguments Raised {R} e.

(** [exec p tr o]: [p] can run with the observed steps [tr] and end in [o]. *)
Fixpoint exec {R : Type} (p : prog R) (tr : list obs) (o : outcome R) : Prop :=
  match p with
  | Ret r => tr = [] ∧ o = Returned r
  | Raise e => tr = [] ∧ o = Raised e
  | Vis a k => ∃ x tr', tr = Obs a x :: tr' ∧ exec (k x) tr' o
  end.

(** Running a method against surroundings with a state of type [W] that
    answer every action. *)
Fixpoint run {R W : Type} (respond : ∀ X, action X → W → X * W)
    (p : prog R) (w : W) : list obs * outcome R :=
  match p with
  | Ret r => ([], Returned r)
  | Raise e => ([], Raised e)
  | Vis a k =>
      let '(x, w') := respond _ a w in
      let '(tr, o) := run respond (k x) w' in
      (Obs a x :: tr, o)
  end.
Definition lift {R : Type} (r : result R) : prog R :=
  match r with
  | Ok a => Ret a
  | Err e => Raise e
  end.

(** [self.context.logger.info] of a plain string. *)
Definition logger_info (msg : string) : prog unit := trigger (LoggerInfo msg []).

(** *** [InitialDelayState] *)

Definition InitialDelayState_async_act (ctx : SkillContext) : prog unit :=
  let delay := initial_delay (params ctx) in
  trigger (Sleep delay);;
  trigger SetDone.

(** *** [RegistrationBehaviour] *)

Definition RegistrationBehaviour_async_act (ctx : SkillContext) : prog unit :=
  trigger (LogStart "register");;
  let payload := RegistrationPayload (agent_address ctx) in
  let stop_condition := RegistrationRound in
  trigger (SendTransaction payload stop_condition);;
  trigger (WaitUntilRoundEnd RegistrationRound);;
  trigger (LogEnd "register");;
  trigger SetDone.

(** *** [DeploySafeBehaviour] *)

Definition DeploySafeBehaviour_not_deployer_act : prog unit :=
  logger_info "I am not the designated sender, waiting until next round...".

Definition DeploySafeBehaviour__send_deploy_transaction (ctx : SkillContext) :
    prog string :=
  let ethereum_node_url := ethereum_node_url (params ctx) in
  ps ← trigger ReadPeriodState;
  let owners := participants ps in
  let threshold := two_thirds_threshold (consensus_params (params ctx)) in
  '(tx_params, contract_address) ←
    trigger (GetDeploySafeTx ethereum_node_url (agent_address ctx)
                             (elements owners) threshold);
  tx_hash ← trigger (SendRawTransaction tx_params);
  trigger (LoggerInfo "Deployment tx hash: {}" [PyStr tx_hash]);;
  mret contract_address.

Definition DeploySafeBehaviour_deployer_act (ctx : SkillContext) : prog unit :=
  logger_info "I am the designated sender, deploying the safe contract...";;
  contract_address ← DeploySafeBehaviour__send_deploy_transaction ctx;
  let payload := DeploySafePayload (agent_address ctx) contract_address in
  let stop_condition := DeploySafeRound in
  trigger (SendTransaction payload stop_condition).

Definition DeploySafeBehaviour_async_act (ctx : SkillContext) : prog unit :=
  trigger (LogStart "deploy_safe");;
  ps ← trigger ReadPeriodState;
  (if decide (agent_address ctx ≠ safe_sender_address ps)
   then DeploySafeBehaviour_not_deployer_act
   else DeploySafeBehaviour_deployer_act ctx);;
  trigger (WaitUntilRoundEnd DeploySafeRound);;
  ps ← trigger ReadPeriodState;
  trigger (LoggerInfo "Safe contract address: {}" [PyStr (safe_contract_address ps)]);;
  trigger (LogEnd "deploy_safe");;
  trigger SetDone.

(** *** [ObserveBehaviour] *)

Definition ObserveBehaviour_async_act (ctx : SkillContext) : prog unit :=
  trigger (LogStart "observe");;
  let currency_id := currency_id (params ctx) in
  let convert_id := convert_id (params ctx) in
  observation ← trigger (GetPrice currency_id convert_id);
  trigger (LoggerInfo "Got observation of {} price in {} from {}: {}"
             [PyStr currency_id; PyStr convert_id; PyStr (price_api_id ctx);
              PyFloat observation]);;
  let payload := Observation (mkObservationPayload (agent_address ctx) observation) in
  let stop_condition := CollectObservationRound in
  trigger (SendTransaction payload stop_condition);;
  trigger (WaitUntilRoundEnd CollectObservationRound);;
  trigger (LogEnd "observe");;
  trigger SetDone.

(** *** [EstimateBehaviour] *)

Definition EstimateBehaviour_async_act (ctx : SkillContext) : prog unit :=
  trigger (LogStart "estimate");;
  let currency_id := currency_id (params ctx) in
  let convert_id := convert_id (params ctx) in
  ps ← trigger ReadPeriodState;
  let observation_payloads := observations ps in
  let observations := observation <$> observation_payloads in
  trigger (LoggerInfo "Using observations {} to compute the estimate."
             [PyFloats observations]);;
  let estimate := estimator_aggregate ctx observations in
  trigger (LoggerInfo "Got estimate of {} price in {}: {}"
             [PyStr currency_id; PyStr convert_id; PyFloat estimate]);;
  let payload := EstimatePayload (agent_address ctx) estimate in
  let stop_condition := EstimateConsensusRound in
  trigger (SendTransaction payload stop_condition);;
  trigger (WaitUntilRoundEnd EstimateConsensusRound);;
  trigger (LogEnd "estimate");;
  trigger SetDone.

(** *** [TransactionHashBehaviour] *)

Definition TransactionHashBehaviour_not_sender_act : prog unit :=
  logger_info "I am not the designated sender, waiting until next round...".

Definition TransactionHashBehaviour_sender_act (ctx : SkillContext) : prog unit :=
  logger_info "I am the designated sender, committing the transaction hash...";;
  ps ← trigger ReadPeriodState;
  trigger (LoggerInfo "Consensus reached on estimate: {}"
             [PyFloat (most_voted_estimate ps)]);;
  let data := encoded_estimate ps in
  let safe_tx := _get_safe_tx (safe_contract_address ps) (agent_address ctx) data in
  let safe_tx_hash := str_drop 2 (HexBytes_hex (safe_tx_hash safe_tx)) in
  trigger (LoggerInfo "Hash of the Safe transaction: {}" [PyStr safe_tx_hash]);;
  let payload := TransactionHashPayload (agent_address ctx) safe_tx_hash in
  let stop_condition := TxHashRound in
  trigger (SendTransaction payload stop_condition).

Definition TransactionHashBehaviour_async_act (ctx : SkillContext) : prog unit :=
  trigger (LogStart "tx_hash");;
  ps ← trigger ReadPeriodState;
  (if decide (agent_address ctx ≠ safe_sender_address ps)
   then TransactionHashBehaviour_not_sender_act
   else TransactionHashBehaviour_sender_act ctx);;
  trigger (WaitUntilRoundEnd TxHashRound);;
  trigger (LogEnd "tx_hash");;
  trigger SetDone.

(** *** [SignatureBehaviour] *)

(** [SIGNATURE_LENGTH]: defined by the module, and used nowhere in it. *)
Definition SIGNATURE_LENGTH : nat := 65.

Definition SignatureBehaviour__get_safe_tx_signature : prog string :=
  ps ← trigger ReadPeriodState;
  match unhexlify (safe_tx_hash_hex ps) with
  | None => Raise BinasciiError
  | Some safe_tx_hash_bytes =>
      trigger (SendSigningRequest safe_tx_hash_bytes true);;
      signature_response ← trigger WaitForMessage;
      let signature_hex := body (signed_message signature_response) in
      let signature_hex := str_drop 2 signature_hex in
      trigger (LoggerInfo "Signature: {}" [PyStr signature_hex]);;
      mret signature_hex
  end.

Definition SignatureBehaviour_async_act (ctx : SkillContext) : prog unit :=
  trigger (LogStart "sign");;
  signature_hex ← SignatureBehaviour__get_safe_tx_signature;
  let payload := SignaturePayload (agent_address ctx) signature_hex in
  let stop_condition := CollectSignatureRound in
  trigger (SendTransaction payload stop_condition);;
  trigger (WaitUntilRoundEnd CollectSignatureRound);;
  trigger (LogEnd "sign");;
  trigger SetDone.

(** *** [FinalizeBehaviour] *)

Definition FinalizeBehaviour_not_sender_act : prog unit :=
  logger_info "I am not the designated sender, waiting until next round...".

(** The loop that composes the final signature: the signers in the order of
    [sorted_addresses], a signer without a recorded signature being
    skipped ([continue]). *)
Definition compose_final_signature (ps : PeriodState) : result bytes :=
  for_each
    (λ final_signature signer,
       match participant_to_signature ps !! signer with
       | None => Ok final_signature
       | Some signature =>
           match unhexlify signature with
           | None => Err BinasciiError
           | Some signature_bytes => Ok (final_signature ++ signature_bytes)
           end
       end)
    (sorted_addresses ps) [].

(** [transaction_dict["gas"]], read as the integer the chain client put
    there; a dictionary without the key raises [KeyError]. *)
Definition dict_get_int (d : gmap string pyvalue) (key : string) : result Z :=
  match d !! key with
  | Some (PyInt n) => Ok n
  | Some _ => Err TypeError
  | None => Err (KeyError key)
  end.

Definition FinalizeBehaviour__send_safe_transaction (ctx : SkillContext) :
    prog string :=
  ps ← trigger ReadPeriodState;
  let data := encoded_estimate ps in
  final_signature ← lift (compose_final_signature ps);
  let safe_tx := _get_safe_tx (safe_contract_address ps) (agent_address ctx) data in
  let safe_tx := set_signatures safe_tx final_signature in
  called ← trigger (SafeTxCall safe_tx (agent_address ctx));
  lift called;;
  tx_gas_price ←
    (if decide (gas_price safe_tx ≠ 0) then mret (gas_price safe_tx)
     else trigger EthGasPrice);
  let tx_parameters : gmap string pyvalue :=
    <["gasPrice" := PyInt tx_gas_price]>
      (<["from" := PyStr (agent_address ctx)]> ∅) in
  transaction_dict ← trigger (BuildTransaction safe_tx tx_parameters);
  gas ← lift (dict_get_int transaction_dict "gas");
  let transaction_dict :=
    <["gas" := PyInt (Z.max (gas + 75000) (recommended_gas safe_tx))]>
      transaction_dict in
  nonce ← trigger (EthGetTransactionCount (toChecksumAddress (agent_address ctx)));
  let transaction_dict := <["nonce" := PyInt nonce]> transaction_dict in
  tx_hash ← trigger (SendRawTransaction transaction_dict);
  trigger (LoggerInfo "Finalization tx hash: {}" [PyStr tx_hash]);;
  mret tx_hash.

Definition FinalizeBehaviour_sender_act (ctx : SkillContext) : prog unit :=
  logger_info "I am the designated sender, sending the safe transaction...";;
  tx_hash ← FinalizeBehaviour__send_safe_transaction ctx;
  trigger (LoggerInfo "Transaction hash of the final transaction: {}"
             [PyStr tx_hash]);;
  ps ← trigger ReadPeriodState;
  trigger (LoggerInfo "Signatures: {}" [PyDict (participant_to_signature ps)]);;
  let payload := FinalizationTxPayload (agent_address ctx) tx_hash in
  let stop_condition := FinalizationRound in
  trigger (SendTransaction payload stop_condition).

Definition FinalizeBehaviour_async_act (ctx : SkillContext) : prog unit :=
  trigger (LogStart "finalize");;
  ps ← trigger ReadPeriodState;
  (if decide (agent_address ctx ≠ safe_sender_address ps)
   then FinalizeBehaviour_not_sender_act
   else FinalizeBehaviour_sender_act ctx);;
  trigger (WaitUntilRoundEnd FinalizationRound);;
  trigger (LogEnd "finalize");;
  trigger SetDone.

(** *** [EndBehaviour] *)

Definition EndBehaviour_async_act (ctx : SkillContext) : prog unit :=
  ps ← trigger ReadPeriodState;
  trigger (LoggerInfo "Finalized estimate: {} with transaction hash: {}"
             [PyFloat (most_voted_estimate ps); PyStr (final_tx_hash ps)]);;
  logger_info "Period end.";;
  trigger SetDone;;
  trigger Yield.

(** The [async_act] of each of the nine classes. *)
Definition async_act (cls : behaviour_cls) (ctx : SkillContext) : prog unit :=
  match cls with
  | InitialDelayState => InitialDelayState_async_act ctx
  | RegistrationBehaviour => RegistrationBehaviour_async_act ctx
  | DeploySafeBehaviour => DeploySafeBehaviour_async_act ctx
  | ObserveBehaviour => ObserveBehaviour_async_act ctx
  | EstimateBehaviour => EstimateBehaviour_async_act ctx
  | TransactionHashBehaviour => TransactionHashBehaviour_async_act ctx
  | SignatureBehaviour => SignatureBehaviour_async_act ctx
  | FinalizeBehaviour => FinalizeBehaviour_async_act ctx
  | EndBehaviour => EndBehaviour_async_act ctx
  end.

(** *** What a run shows *)

(** The payloads handed to the consensus substrate. *)
Definition submitted_payloads (tr : list obs) : list payload :=
  omap (λ o, match o with
             | Obs a _ =>
                 match a with
                 | SendTransaction p _ => Some p
                 | _ => None
                 end
             end) tr.

(** The transactions sent to the chain client for inclusion. *)
Definition raw_transactions (tr : list obs) : list (gmap string pyvalue) :=
  omap (λ o, match o with
             | Obs a _ =>
                 match a with
                 | SendRawTransaction tx => Some tx
                 | _ => None
                 end
             end) tr.

(** The multisig deployments asked for: node, sender, owners, threshold. *)
Definition deploy_requests (tr : list obs) :
    list (string * string * list string * Z) :=
  omap (λ o, match o with
             | Obs a _ =>
                 match a with
                 | GetDeploySafeTx url sender owners threshold =>
                     Some (url, sender, owners, threshold)
                 | _ => None
                 end
             end) tr.

(** The requests sent to the signing oracle: message and signing mode. *)
Definition signing_requests (tr : list obs) : list (bytes * bool) :=
  omap (λ o, match o with
             | Obs a _ =>
                 match a with
                 | SendSigningRequest raw_message is_deprecated_mode =>
                     Some (raw_message, is_deprecated_mode)
                 | _ => None
                 end
             end) tr.

(** The period states read, in the order of the reads. *)
Definition period_state_reads (tr : list obs) : list PeriodState :=
  omap (λ o, match o with
             | Obs a x =>
                 match a in action X return X → option PeriodState with
                 | ReadPeriodState => λ ps, Some ps
                 | _ => λ _, None
                 end x
             end) tr.

(** The plain log lines written. *)
Definition logged (tr : list obs) : list string :=
  omap (λ o, match o with
             | Obs a _ =>
                 match a with
                 | LoggerInfo msg _ => Some msg
                 | _ => None
                 end
             end) tr.

(** The chain-writing steps of a run: multisig deployments and
    transactions sent. *)
Definition chain_writes (tr : list obs) : nat :=
  (length (deploy_requests tr) + length (raw_transactions tr))%nat.

(** The [SafeTx] objects handed to the chain client to build the
    chain-writing transaction from. *)
Definition built_safe_txs (tr : list obs) : list SafeTx :=
  omap (λ o, match o with
             | Obs a _ =>
                 match a with
                 | BuildTransaction safe_tx _ => Some safe_tx
                 | _ => None
                 end
             end) tr.

(** *** Surroundings for test runs

    Fixed answers to every action: the period state, the price quoted, the
    deployment transaction and contract address, the hash of a transaction
    sent, the answer of the signing oracle, the result of the simulated
    call, the gas price, the gas estimate the chain client puts into the
    transaction it builds, and the transaction count. *)
Record Surroundings : Type := mkSurroundings {
  the_period_state : PeriodState;
  the_price : float;
  the_deploy_tx : gmap string pyvalue * string;
  the_tx_hash : string;
  the_signing_response : SigningMessage;
  the_call_result : result Z;
  the_gas_price : Z;
  the_gas_estimate : Z;
  the_transaction_count : Z
}.

Definition respond (s : Surroundings) (X : Type) (a : action X) (w : unit) :
    X * unit :=
  (match a in action X return X with
   | LogStart _ | LogEnd _ | LoggerInfo _ _ | Sleep _ | SendTransaction _ _
   | WaitUntilRoundEnd _ | SetDone | Yield | SendSigningRequest _ _ => ()
   | ReadPeriodState => the_period_state s
   | GetPrice _ _ => the_price s
   | GetDeploySafeTx _ _ _ _ => the_deploy_tx s
   | SendRawTransaction _ => the_tx_hash s
   | WaitForMessage => the_signing_response s
   | SafeTxCall _ _ => the_call_result s
   | EthGasPrice => the_gas_price s
   | BuildTransaction _ tx_parameters =>
       <["gas" := PyInt (the_gas_estimate s)]> tx_parameters
   | EthGetTransactionCount _ => the_transaction_count s
   end, w).

(** *** The spec's reading of the final signature *)

(** The participants with a recorded signature. *)
Definition signed_participants (ps : PeriodState) : gset string :=
  filter (λ a, is_Some (participant_to_signature ps !! a)) (participants ps).

(** Spec, 8.2: [concat(sig[a] for a in sorted(S))]. *)
Definition finalSignature_spec (S : gset string) (sig : string → bytes) : bytes :=
  concat (sig <$> merge_sort String.le (elements S)).

(** The two period states agree on what the Safe transaction is built
    from: designated sender, safe contract address, encoded estimate. *)
Definition same_inputs (ps ps' : PeriodState) : Prop :=
  safe_sender_address ps' = safe_sender_address ps
  ∧ safe_contract_address ps' = safe_contract_address ps
  ∧ encoded_estimate ps' = encoded_estimate ps.
(** *** Runs in which a collaborator fails

    In [exec] every action is answered.  The calls of the behaviours are not
    guarded: when the consensus substrate, the price API, the signing oracle
    or the chain client raises instead of answering (an answer of the
    signing oracle without a signed message makes the attribute access
    raise just so), the behaviour ends there with that exception.  Logging,
    [set_done] and the bare [yield] do not fail. *)
Definition may_raise {X : Type} (a : action X) : bool :=
  match a with
  | LogStart _ | LogEnd _ | LoggerInfo _ _ | SetDone | Yield => false
  | _ => true
  end.

(** [exec_raising p tr o]: as [exec], but an action that may raise either is
    answered or ends the run with an exception; [tr] holds the answered
    actions. *)
Fixpoint exec_raising {R : Type} (p : prog R) (tr : list obs) (o : outcome R) : Prop :=
  match p with
  | Ret r => tr = [] ∧ o = Returned r
  | Raise e => tr = [] ∧ o = Raised e
  | Vis a k =>
      (∃ x tr', tr = Obs a x :: tr' ∧ exec_raising (k x) tr' o)
      ∨ (may_raise a = true ∧ tr = [] ∧ ∃ e, o = Raised e)
  end.

(** *** More of what a run shows *)

(** How often the behaviour called [set_done]. *)
Definition done_signals (tr : list obs) : nat :=
  length (omap (λ o, match o with
                     | Obs a _ =>
                         match a with
                         | SetDone => Some ()
                         | _ => None
                         end
                     end) tr).

(** The rounds whose end the behaviour waited for. *)
Definition waited_rounds (tr : list obs) : list round_cls :=
  omap (λ o, match o with
             | Obs a _ =>
                 match a with
                 | WaitUntilRoundEnd round => Some round
                 | _ => None
                 end
             end) tr.

(** The rounds whose end stops the resubmission of a payload. *)
Definition stop_conditions (tr : list obs) : list round_cls :=
  omap (λ o, match o with
             | Obs a _ =>
                 match a with
                 | SendTransaction _ stop_condition => Some stop_condition
                 | _ => None
                 end
             end) tr.

(** The prices asked for: currency, conversion currency and the answer. *)
Definition price_requests (tr : list obs) : list (string * string * float) :=
  omap (λ o, match o with
             | Obs a x =>
                 match a in action X return X → option (string * string * float) with
                 | GetPrice currency convert => λ price, Some (currency, convert, price)
                 | _ => λ _, None
                 end x
             end) tr.

(** The answers to the deployment requests: transaction and address. *)
Definition deploy_answers (tr : list obs) : list (gmap string pyvalue * string) :=
  omap (λ o, match o with
             | Obs a x =>
                 match a in action X
                       return X → option (gmap string pyvalue * string) with
                 | GetDeploySafeTx _ _ _ _ => λ answer, Some answer
                 | _ => λ _, None
                 end x
             end) tr.

(** The hashes the chain client answered the transactions sent with. *)
Definition raw_transaction_hashes (tr : list obs) : list string :=
  omap (λ o, match o with
             | Obs a x =>
                 match a in action X return X → option string with
                 | SendRawTransaction _ => λ tx_hash, Some tx_hash
                 | _ => λ _, None
                 end x
             end) tr.

(** The simulated calls [safe_tx.call(address)] and their results. *)
Definition simulated_calls (tr : list obs) : list (SafeTx * string * result Z) :=
  omap (λ o, match o with
             | Obs a x =>
                 match a in action X return X → option (SafeTx * string * result Z) with
                 | SafeTxCall safe_tx address => λ r, Some (safe_tx, address, r)
                 | _ => λ _, None
                 end x
             end) tr.

(** The gas prices read from the chain client. *)
Definition gas_price_requests (tr : list obs) : list Z :=
  omap (λ o, match o with
             | Obs a x =>
                 match a in action X return X → option Z with
                 | EthGasPrice => λ price, Some price
                 | _ => λ _, None
                 end x
             end) tr.

(** The transactions built: the parameters passed and the transaction
    the chain client answered with. *)
Definition build_requests (tr : list obs) :
    list (gmap string pyvalue * gmap string pyvalue) :=
  omap (λ o, match o with
             | Obs a x =>
                 match a in action X
                       return X → option (gmap string pyvalue * gmap string pyvalue) with
                 | BuildTransaction _ tx_parameters =>
                     λ transaction_dict, Some (tx_parameters, transaction_dict)
                 | _ => λ _, None
                 end x
             end) tr.

(** The period state with one more signature on record. *)
Definition record_signature (ps : PeriodState) (a signature : string) : PeriodState :=
  mkPeriodState (participants ps) (safe_sender_address ps)
    (safe_contract_address ps) (observations ps) (most_voted_estimate ps)
    (encoded_estimate ps) (safe_tx_hash_hex ps)
    (<[a := signature]> (participant_to_signature ps)) (final_tx_hash ps).
End Behaviours.


Arguments PyStr {float} s.
Arguments PyInt {float} n.
Arguments PyBytes {float} b.
Arguments PyFloat {float} x.
Arguments PyFloats {float} l.
Arguments PyDict {float} d.
Arguments mkObservationPayload {float} observation_sender observation.
Arguments observation_sender {float} o.
Arguments observation {float} o.
Arguments RegistrationPayload {float} sender.
Arguments DeploySafePayload {float} sender safe_contract_address.
Arguments Observation {float} p.
Arguments EstimatePayload {float} sender estimate.
Arguments TransactionHashPayload {float} sender tx_hash.
Arguments SignaturePayload {float} sender signature.
Arguments FinalizationTxPayload {float} sender tx_hash.
Arguments payload_sender {float} p.
Arguments mkPeriodState {float}.
Arguments participants {float} p.
Arguments safe_sender_address {float} p.
Arguments safe_contract_address {float} p.
Arguments observations {float} p.
Arguments most_voted_estimate {float} p.
Arguments encoded_estimate {float} p.
Arguments safe_tx_hash_hex {float} p.
Arguments participant_to_signature {float} p.
Arguments final_tx_hash {float} p.
Arguments sorted_addresses {float} ps.
Arguments mkParams {float}.
Arguments initial_delay {float} p.
Arguments ethereum_node_url {float} p.
Arguments currency_id {float} p.
Arguments convert_id {float} p.
Arguments consensus_params {float} p.
Arguments mkSkillContext {float}.
Arguments agent_address {float} s.
Arguments params {float} s.
Arguments price_api_id {float} s.
Arguments estimator_aggregate {float} s.
Arguments LogStart {float} state.
Arguments LogEnd {float} state.
Arguments LoggerInfo {float} template args.
Arguments ReadPeriodState {float}.
Arguments Sleep {float} seconds.
Arguments SendTransaction {float} p stop_condition.
Arguments WaitUntilRoundEnd {float} round.
Arguments SetDone {float}.
Arguments Yield {float}.
Arguments GetPrice {float} currency convert.
Arguments GetDeploySafeTx {float} ethereum_node_url sender owners threshold.
Arguments SendRawTransaction {float} tx.
Arguments SendSigningRequest {float} raw_message is_deprecated_mode.
Arguments WaitForMessage {float}.
Arguments SafeTxCall {float} safe_tx tx_sender_address.
Arguments EthGasPrice {float}.
Arguments BuildTransaction {float} safe_tx tx_parameters.
Arguments EthGetTransactionCount {float} address.
Arguments Ret {float R} r.
Arguments Raise {float R} e.
Arguments Vis {float R X} a k.
Arguments prog_bind {float A B} f m.
Arguments trigger {float X} a.
Arguments lift {float R} r.
Arguments Obs {float X} a x.
Arguments Returned {R} r.
Arguments Raised {R} e.
Arguments exec {float R} p tr o.
Arguments run {float R W} respond p w.
Arguments compose_final_signature {float} ps.
Arguments dict_get_int {float} d key.
Arguments submitted_payloads {float} tr.
Arguments raw_transactions {float} tr.
Arguments deploy_requests {float} tr.
Arguments signing_requests {float} tr.
Arguments period_state_reads {float} tr.
Arguments logged {float} tr.
Arguments chain_writes {float} tr.
Arguments built_safe_txs {float} tr.
Arguments mkSurroundings {float}.
Arguments the_period_state {float} s.
Arguments the_price {float} s.
Arguments the_deploy_tx {float} s.
Arguments the_tx_hash {float} s.
Arguments the_signing_response {float} s.
Arguments the_call_result {float} s.
Arguments the_gas_price {float} s.
Arguments the_gas_estimate {float} s.
Arguments the_transaction_count {float} s.
Arguments respond {float} s X a w.
Arguments signed_participants {float} ps.
Arguments same_inputs {float} ps ps'.
Arguments may_raise {float X} a.
Arguments exec_raising {float R} p tr o.
Arguments done_signals {float} tr.
Arguments waited_rounds {float} tr.
Arguments stop_conditions {float} tr.
Arguments price_requests {float} tr.
Arguments deploy_answers {float} tr.
Arguments raw_transaction_hashes {float} tr.
Arguments simulated_calls {float} tr.
Arguments gas_price_requests {float} tr.
Arguments build_requests {float} tr.
Arguments record_signature {float} ps a signature.

(** The format of a signature response, spec 6: the prefix [0x] and then
    [2 * SIGNATURE_LENGTH = 130] hexadecimal digits. *)
Definition signature_response_ok (s : string) : bool :=
  match s with
  | String "0" (String "x" hex) =>
      (String.length hex =? 2 * SIGNATURE_LENGTH)%nat
      && bool_decide (is_Some (unhexlify hex))
  | _ => false
  end.

(** ** Test data

    Four agents, of which [0xA] is the designated sender; [0xA] and [0xC]
    have a signature on record, recorded in this order of submission: first
    [0xC], then [0xA].  Prices are in hundredths. *)

Definition example_participant_to_signature : gmap string string :=
  list_to_map [("0xC", "cc0c"); ("0xA", "aa0a")].

Definition example_period_state : PeriodState Z :=
  mkPeriodState
    (list_to_set ["0xD"; "0xB"; "0xA"; "0xC"])
    "0xA" "0x5afe"
    [mkObservationPayload "0xA" 10000; mkObservationPayload "0xB" 10100;
     mkObservationPayload "0xC" 9950; mkObservationPayload "0xD" 10050]
    10025 [x01; x02] "c0ffee" example_participant_to_signature "0xf1".

Definition example_params : Params Z :=
  mkParams 5 "http://localhost:8545" "bitcoin" "usd" (mkConsensusParams 4).

Definition example_context (agent_address : string) : SkillContext Z :=
  mkSkillContext agent_address example_params "coingecko" (λ _, 10025).

(** A Safe transaction with hash [c0ffee] and recommended gas [150000]. *)
Definition example_get_safe_tx (safe_contract_address sender : string)
    (data : bytes) : SafeTx :=
  mkSafeTx safe_contract_address 0 data 0 [xc0; xff; xee] [] 0 150000.

(** Surroundings in which the chain client estimates the gas at
    [gas_estimate] and the signing oracle answers with [signature]. *)
Definition example_surroundings (gas_estimate : Z) (signature : string) :
    Surroundings Z :=
  mkSurroundings example_period_state 10000 (∅, "0x5afe") "0xf1"
    (mkSigningMessage (mkSignedMessage signature)) (Ok 1) 20 gas_estimate 7.

(** The runs of the test: the designated sender [0xA] in the Deploy-Safe
    deployment, the TxHash phase and the Finalize phase, the agent [0xB] in
    the Finalize and Signature phases; in the last one the signing oracle
    answers [deadbeef], which has neither the prefix nor the length of a
    signature. *)
Definition example_deploy_run : list (obs Z) * outcome string :=
  run (respond (example_surroundings 100000 "0xabcd"))
      (DeploySafeBehaviour__send_deploy_transaction Z (example_context "0xA")) ().

Definition example_tx_hash_run : list (obs Z) * outcome () :=
  run (respond (example_surroundings 100000 "0xabcd"))
      (TransactionHashBehaviour_async_act Z example_get_safe_tx (example_context "0xA")) ().

Definition example_send_run (gas_estimate : Z) : list (obs Z) * outcome string :=
  run (respond (example_surroundings gas_estimate "0xabcd"))
      (FinalizeBehaviour__send_safe_transaction Z id example_get_safe_tx
         (example_context "0xA")) ().

Definition example_finalize_run (agent_address : string) :
    list (obs Z) * outcome () :=
  run (respond (example_surroundings 100000 "0xabcd"))
      (FinalizeBehaviour_async_act Z id example_get_safe_tx
         (example_context agent_address)) ().

Definition example_signature_run (signature : string) : list (obs Z) * outcome () :=
  run (respond (example_surroundings 100000 signature))
      (SignatureBehaviour_async_act Z (example_context "0xB")) ().

(** The transaction the designated sender sends in the Finalize phase when
    the chain client estimates the gas at [100000]. *)
Definition example_final_transaction : gmap string (pyvalue Z) :=
  <["nonce" := PyInt 7]>
    (<["gas" := PyInt 175000]>
       (<["gas" := PyInt 100000]>
          (<["gasPrice" := PyInt 20]> (<["from" := PyStr "0xA"]> ∅)))).

(** The bytes of the signature on record for an address of the test. *)
Definition example_sig (a : string) : bytes :=
  default [] (example_participant_to_signature !! a ≫= unhexlify).

(** Further test data: the period state of the test with another transaction
    hash and other signatures on record, and surroundings that answer with a
    given period state and a given result of the simulated call. *)
Definition example_state_with (tx_hash_hex : string) (sigs : gmap string string) :
    PeriodState Z :=
  mkPeriodState (participants example_period_state) "0xA" "0x5afe"
    (observations example_period_state) 10025 [x01; x02] tx_hash_hex sigs "0xf1".

Definition example_surroundings_in (ps : PeriodState Z) (call_result : result Z) :
    Surroundings Z :=
  mkSurroundings ps 10000 (∅, "0x5afe") "0xf1"
    (mkSigningMessage (mkSignedMessage "0xabcd")) call_result 20 100000 7.

(** A signature of 65 bytes: 130 hexadecimal digits. *)
Definition example_full_signature : string :=
  "ababababababababababababababababababababababababababababababababababababababababababababababababababababababababababababababababab".

Definition example_signed_state : PeriodState Z :=
  example_state_with "c0ffee"
    (list_to_map [("0xC", example_full_signature); ("0xA", example_full_signature)]).

(** The test with three participants on record and consensus parameters
    that are set up for four. *)
Definition example_three_state : PeriodState Z :=
  mkPeriodState (list_to_set ["0xB"; "0xA"; "0xC"]) "0xA" "0x5afe" [] 10025
    [x01; x02] "c0ffee" ∅ "0xf1".

Definition example_three_run : list (obs Z) * outcome () :=
  run (respond (example_surroundings_in example_three_state (Ok 1)))
      (DeploySafeBehaviour_async_act Z (example_context "0xA")) ().

Definition example_deploy_phase_run : list (obs Z) * outcome () :=
  run (respond (example_surroundings 100000 "0xabcd"))
      (DeploySafeBehaviour_async_act Z (example_context "0xA")) ().
(** * Properties *)

(** ** Fallible computations and hexadecimal strings *)

Lemma bind_Ok {A B : Type} (a : A) (f : A → result B) : Ok a ≫= f = f a.
Proof. reflexivity. Qed.

Lemma bind_Err {A B : Type} (e : exn) (f : A → result B) : Err e ≫= f = Err e.
Proof. reflexivity. Qed.

Lemma ceil_div_spec (a b : Z) : 0 < b → a ≤ b * ceil_div a b < a + b.
Proof.
  intros Hb. unfold ceil_div.
  pose proof (Z.div_mod (- a) b ltac:(lia)).
  pose proof (Z.mod_pos_bound (- a) b Hb). lia.
Qed.

Lemma StronglySorted_filter {A : Type} (R : relation A) (P : A → Prop)
    `{!∀ x, Decision (P x)} (l : list A) :
  StronglySorted R l → StronglySorted R (filter P l).
Proof.
  induction 1 as [|x l Hl IH Hx]; [constructor|].
  rewrite filter_cons. destruct (decide (P x)); [|done].
  constructor; [done|]. apply Forall_forall. intros y Hy.
  apply list_elem_of_filter in Hy as [_ Hy].
  by eapply Forall_forall in Hx.
Qed.

Lemma unhexlify_hexlify (bs : bytes) : unhexlify (hexlify bs) = Some bs.
Proof.
  induction bs as [|b bs IH]; [reflexivity|].
  cbn [hexlify unhexlify]. rewrite IH.
  destruct b; reflexivity.
Qed.

Lemma unhexlify_length_pair (s : string) :
  (∀ bs : bytes, unhexlify s = Some bs → String.length s = (2 * length bs)%nat)
  ∧ (∀ (c : ascii) (bs : bytes), unhexlify (String c s) = Some bs →
       String.length (String c s) = (2 * length bs)%nat).
Proof.
  induction s as [|lo rest [IH1 IH2]].
  - split; [by intros bs [= <-]|done].
  - split; [apply IH2|]. intros hi bs H. simpl in H.
    destruct (hex_digit hi) as [h|]; [|done]. simpl in H.
    destruct (hex_digit lo) as [l|]; [|done]. simpl in H.
    destruct (Byte.of_N (16 * h + l)) as [b|]; [|done]. simpl in H.
    destruct (unhexlify rest) as [bs'|] eqn:E; [|done]. simpl in H.
    injection H as <-. specialize (IH1 bs' eq_refl). simpl in *. lia.
Qed.

Lemma unhexlify_length (s : string) (bs : bytes) :
  unhexlify s = Some bs → String.length s = (2 * length bs)%nat.
Proof. apply unhexlify_length_pair. Qed.

Lemma signature_response_ok_inv (s : string) :
  signature_response_ok s = true →
  ∃ hex : string, s = String "0" (String "x" hex)
    ∧ String.length hex = (2 * SIGNATURE_LENGTH)%nat
    ∧ is_Some (unhexlify hex).
Proof.
  unfold signature_response_ok. intros H.
  destruct s as [|c0 [|c1 hex]]; try done.
  - by destruct c0 as [[] [] [] [] [] [] [] []].
  - destruct c0 as [[] [] [] [] [] [] [] []]; try done.
    destruct c1 as [[] [] [] [] [] [] [] []]; try done.
    apply andb_true_iff in H as [Hlen Hhex].
    apply Nat.eqb_eq in Hlen. apply bool_decide_eq_true in Hhex.
    by exists hex.
Qed.

Lemma str_drop_HexBytes_hex (bs : bytes) : str_drop 2 (HexBytes_hex bs) = hexlify bs.
Proof. reflexivity. Qed.

Lemma length_hexlify (bs : bytes) : String.length (hexlify bs) = (2 * length bs)%nat.
Proof. induction bs as [|b bs IH]; simpl; lia. Qed.

(** ** The state machine *)

Section FSMFacts.
Context {State : Type}.
Implicit Types self : FSMBehaviour State.

Lemma register_state_fresh self name state initial :
  name_to_state self !! name = None →
  ∃ self', register_state self name state initial = Ok self'
    ∧ name_to_state self' = <[name := state]> (name_to_state self)
    ∧ transitions self' = transitions self
    ∧ initial_state self' = (if initial then Some name else initial_state self)
    ∧ current self' = (if initial then Some name else current self).
Proof.
  intros Hfresh. unfold register_state.
  destruct (decide _) as [[? Hin]|_]; [congruence|].
  destruct initial; eexists; split_and!; reflexivity.
Qed.

Lemma register_state_taken self name state initial :
  is_Some (name_to_state self !! name) →
  register_state self name state initial
  = Err (ValueError "State name already existing.").
Proof. intros H. unfold register_state. by rewrite decide_True. Qed.

Lemma next_state_transitions self self' :
  transitions self' = transitions self →
  ∀ src ev, next_state self' src ev = next_state self src ev.
Proof. intros E src ev. unfold next_state. by rewrite E. Qed.

Lemma register_transition_free self source destination event :
  next_state self source event = None →
  ∃ self', register_transition self source destination event = Ok self'
    ∧ name_to_state self' = name_to_state self
    ∧ initial_state self' = initial_state self
    ∧ current self' = current self
    ∧ ∀ src ev, next_state self' src ev
        = if decide (src = source ∧ ev = event) then Some destination
          else next_state self src ev.
Proof.
  intros Hfree. unfold register_transition.
  destruct (decide _) as [[_ [d Hd]]|_].
  { unfold next_state in Hfree. congruence. }
  eexists; split_and!; try reflexivity.
  intros src ev. unfold next_state; simpl.
  destruct (decide (src = source)) as [->|Hne].
  - rewrite lookup_insert_eq; simpl.
    destruct (decide (ev = event)) as [->|Hev].
    + rewrite lookup_insert_eq. by rewrite decide_True.
    + rewrite lookup_insert_ne by done. rewrite decide_False by tauto. done.
  - rewrite lookup_insert_ne by done. rewrite decide_False by tauto. done.
Qed.

Lemma register_transition_taken self source destination event :
  is_Some (next_state self source event) →
  register_transition self source destination event
  = Err (ValueError "Transition already registered.").
Proof.
  intros [d Hd]. unfold register_transition. rewrite decide_True; [done|].
  unfold next_state in Hd. split; [|by eexists].
  destruct (transitions self !! source); [by eexists|]. simpl in Hd.
  by rewrite lookup_empty in Hd.
Qed.
End FSMFacts.

Lemma list_get_lookup {A : Type} (l : list A) (i : nat) (x : A) :
  l !! i = Some x → list_get l i = Ok x.
Proof. intros H. unfold list_get. by rewrite H. Qed.

(** [src] is immediately followed by [dst] in the list [ids]. *)
Definition consecutive (ids : list string) (src dst : string) : Prop :=
  ∃ i : nat, ids !! i = Some src ∧ ids !! S i = Some dst.

Section RegisterStatesFacts.
Context {StateCls : Type} (state_id : StateCls → string) (DONE_EVENT : string).
Implicit Types self : FSMBehaviour StateCls.
Implicit Types state_classes : list StateCls.

Lemma register_each_state state_classes : ∀ self,
  NoDup (state_id <$> state_classes) →
  (∀ c, c ∈ state_classes → name_to_state self !! state_id c = None) →
  ∃ self',
    for_each (λ self state_cls, _register_state state_id self state_cls false)
             state_classes self = Ok self'
    ∧ transitions self' = transitions self
    ∧ initial_state self' = initial_state self
    ∧ current self' = current self
    ∧ ∀ n, name_to_state self' !! n
        = match list_find (λ c, state_id c = n) state_classes with
          | Some (_, c) => Some c
          | None => name_to_state self !! n
          end.
Proof.
  induction state_classes as [|c l IH]; intros self Hnd Hfresh.
  { eexists; split_and!; reflexivity. }
  rewrite fmap_cons in Hnd. apply NoDup_cons in Hnd as [Hc Hnd].
  destruct (register_state_fresh self (state_id c) c false) as
    (self1 & E1 & Hn1 & Ht1 & Hi1 & Hc1).
  { apply Hfresh. left. }
  destruct (IH self1 Hnd) as (self2 & E2 & Ht2 & Hi2 & Hc2 & Hn2).
  { intros c' Hc'. rewrite Hn1, lookup_insert_ne.
    - apply Hfresh. by right.
    - intros E. apply Hc. rewrite E. by apply list_elem_of_fmap_2. }
  exists self2. split_and!; try congruence.
  { cbn [for_each].
    change (_register_state state_id self c false)
      with (register_state self (state_id c) c false).
    rewrite E1, bind_Ok. exact E2. }
  intros n. rewrite Hn2. simpl. destruct (decide (state_id c = n)) as [<-|Hne].
  - simpl. destruct (list_find _ l) as [[j c']|] eqn:Hf; simpl.
    + apply list_find_Some in Hf as (Hj & E & _). exfalso. apply Hc.
      rewrite <- E. apply list_elem_of_fmap_2. by eapply list_elem_of_lookup_2.
    + by rewrite Hn1, lookup_insert_eq.
  - destruct (list_find _ l) as [[j c']|]; simpl; [done|].
    by rewrite Hn1, lookup_insert_ne.
Qed.

Lemma register_each_transition state_classes :
  NoDup (state_id <$> state_classes) →
  ∀ (m j : nat) self,
    (j + m = length state_classes - 1)%nat →
    (∀ src ev dst, next_state self src ev = Some dst ↔
       ev = Some DONE_EVENT ∧
       ∃ i : nat, (i < j)%nat ∧ (state_id <$> state_classes) !! i = Some src
                  ∧ (state_id <$> state_classes) !! S i = Some dst) →
    ∃ self',
      for_each
        (λ self index,
           before ← list_get state_classes index;
           after ← list_get state_classes (index + 1);
           register_transition self (state_id before) (state_id after)
                               (Some DONE_EVENT))
        (seq j m) self = Ok self'
      ∧ name_to_state self' = name_to_state self
      ∧ initial_state self' = initial_state self
      ∧ current self' = current self
      ∧ ∀ src ev dst, next_state self' src ev = Some dst ↔
          ev = Some DONE_EVENT ∧
          ∃ i : nat, (i < j + m)%nat ∧ (state_id <$> state_classes) !! i = Some src
                     ∧ (state_id <$> state_classes) !! S i = Some dst.
Proof.
  intros Hnd. induction m as [|m IH]; intros j self Hlen Hinv.
  { exists self. split_and!; try reflexivity.
    intros src ev dst. rewrite Hinv. by rewrite Nat.add_0_r. }
  destruct (lookup_lt_is_Some_2 state_classes j) as [before Hb]; [lia|].
  destruct (lookup_lt_is_Some_2 state_classes (S j)) as [after Ha]; [lia|].
  assert (Hidb : (state_id <$> state_classes) !! j = Some (state_id before))
    by (by rewrite list_lookup_fmap, Hb).
  assert (Hida : (state_id <$> state_classes) !! S j = Some (state_id after))
    by (by rewrite list_lookup_fmap, Ha).
  destruct (register_transition_free self (state_id before) (state_id after)
              (Some DONE_EVENT)) as (self1 & E1 & Hn1 & Hi1 & Hc1 & Hnext1).
  { destruct (next_state self _ _) as [d|] eqn:Hd; [|done].
    apply Hinv in Hd as (_ & i & Hi & Hsrc & _).
    pose proof (NoDup_lookup _ _ _ _ Hnd Hsrc Hidb). lia. }
  destruct (IH (S j) self1) as (self2 & E2 & Hn2 & Hi2 & Hc2 & Hnext2); [lia|..].
  { intros src ev dst. rewrite Hnext1. destruct (decide _) as [[-> ->]|Hne].
    - split.
      + intros [= <-]. split; [done|]. exists j. split_and!; [lia|done..].
      + intros (_ & i & Hi & Hsrc & Hdst).
        pose proof (NoDup_lookup _ _ _ _ Hnd Hsrc Hidb) as ->. congruence.
    - rewrite Hinv. split.
      + intros (Hev & i & Hi & Hsrc & Hdst). split; [done|].
        exists i. split_and!; [lia|done..].
      + intros (Hev & i & Hi & Hsrc & Hdst). split; [done|].
        exists i. split_and!; [|done..].
        destruct (decide (i = j)) as [->|]; [|lia].
        exfalso. apply Hne. split; congruence. }
  exists self2. split_and!; try congruence.
  - cbn [seq for_each].
    rewrite (list_get_lookup _ _ _ Hb), bind_Ok.
    replace (j + 1)%nat with (S j) by lia.
    rewrite (list_get_lookup _ _ _ Ha), bind_Ok.
    rewrite E1, bind_Ok. exact E2.
  - intros src ev dst. rewrite Hnext2.
    by replace (S j + m)%nat with (j + S m)%nat by lia.
Qed.

(** What [_register_states] builds from a fresh machine and a non-empty list
    of classes with pairwise distinct state ids. *)
Lemma register_states_chain state_classes first rest :
  state_classes = first :: rest →
  NoDup (state_id <$> state_classes) →
  ∃ self',
    _register_states state_id DONE_EVENT FSMBehaviour_init state_classes = Ok self'
    ∧ initial_state self' = Some (state_id first)
    ∧ current self' = Some (state_id first)
    ∧ (∀ n, name_to_state self' !! n
            = snd <$> list_find (λ c, state_id c = n) state_classes)
    ∧ ∀ src ev dst, next_state self' src ev = Some dst ↔
        ev = Some DONE_EVENT ∧ consecutive (state_id <$> state_classes) src dst.
Proof.
  intros -> Hnd. pose proof Hnd as Hnd'.
  rewrite fmap_cons in Hnd'. apply NoDup_cons in Hnd' as [Hfirst Hrest].
  destruct (register_state_fresh (State:=StateCls) FSMBehaviour_init
              (state_id first) first true) as (s1 & E1 & Hn1 & Ht1 & Hi1 & Hc1).
  { apply lookup_empty. }
  destruct (register_each_state rest s1 Hrest) as (s2 & E2 & Ht2 & Hi2 & Hc2 & Hn2).
  { intros c Hc. rewrite Hn1, lookup_insert_ne; [apply lookup_empty|].
    intros E. apply Hfirst. rewrite E. by apply list_elem_of_fmap_2. }
  destruct (register_each_transition (first :: rest) Hnd (length rest) 0 s2)
    as (s3 & E3 & Hn3 & Hi3 & Hc3 & Hnext3).
  { simpl. lia. }
  { intros src ev dst. split.
    - unfold next_state. rewrite Ht2, Ht1. simpl.
      rewrite lookup_empty. simpl. by rewrite lookup_empty.
    - intros (_ & i & Hi & _). lia. }
  exists s3. split_and!; try congruence.
  - unfold _register_states. cbn [length Nat.eqb negb enforce].
    rewrite bind_Ok, (list_get_lookup _ 0 first), bind_Ok by done.
    change (_register_state state_id FSMBehaviour_init first true)
      with (register_state (State:=StateCls) FSMBehaviour_init (state_id first) first true).
    rewrite E1, bind_Ok. change (drop 1 (first :: rest)) with rest.
    rewrite E2, bind_Ok.
    rewrite Nat.sub_succ, Nat.sub_0_r. exact E3.
  - intros n. rewrite Hn3, Hn2. simpl.
    destruct (decide (state_id first = n)) as [<-|Hne]; simpl.
    + destruct (list_find _ rest) as [[j c]|] eqn:Hf; simpl.
      * apply list_find_Some in Hf as (Hj & E & _). exfalso. apply Hfirst.
        rewrite <- E. apply list_elem_of_fmap_2. by eapply list_elem_of_lookup_2.
      * by rewrite Hn1, lookup_insert_eq.
    + destruct (list_find _ rest) as [[j c]|]; simpl; [done|].
      rewrite Hn1, lookup_insert_ne by done. apply lookup_empty.
  - intros src ev dst. rewrite Hnext3. unfold consecutive. simpl.
    split; intros (Hev & i & H); (split; [done|]); exists i.
    + tauto.
    + destruct H as [Hs Hd]. split_and!; [|done..].
      apply lookup_lt_Some in Hd. rewrite length_fmap in Hd. simpl in Hd. lia.
Qed.
Lemma register_each_state_clash state_classes : ∀ self,
  (∃ c, c ∈ state_classes ∧ is_Some (name_to_state self !! state_id c))
  ∨ ¬ NoDup (state_id <$> state_classes) →
  for_each (λ self state_cls, _register_state state_id self state_cls false)
           state_classes self
  = Err (ValueError "State name already existing.").
Proof.
  induction state_classes as [|c l IH]; intros self Hclash.
  { destruct Hclash as [(c & Hc & _)|Hnd].
    - by apply elem_of_nil in Hc.
    - destruct Hnd. constructor. }
  cbn [for_each].
  change (_register_state state_id self c false)
    with (register_state self (state_id c) c false).
  destruct (name_to_state self !! state_id c) as [c0|] eqn:Ec.
  { rewrite register_state_taken by (by eexists). done. }
  destruct (register_state_fresh self (state_id c) c false Ec) as
    (self1 & E1 & Hn1 & _).
  rewrite E1, bind_Ok. apply IH.
  destruct (decide (state_id c ∈ state_id <$> l)) as [Hin|Hnin].
  { left. apply list_elem_of_fmap in Hin as (c' & E & Hc').
    exists c'. split; [done|]. rewrite Hn1, <- E, lookup_insert_eq. by eexists. }
  destruct Hclash as [(c' & Hc' & Hsome)|Hnd].
  - left. apply elem_of_cons in Hc' as [->|Hc'].
    + rewrite Ec in Hsome. by destruct Hsome.
    + exists c'. split; [done|]. rewrite Hn1.
      destruct (decide (state_id c = state_id c')) as [E|Hne].
      * rewrite E, lookup_insert_eq. by eexists.
      * by rewrite lookup_insert_ne.
  - right. intros Hl. apply Hnd. rewrite fmap_cons. by constructor.
Qed.

End RegisterStatesFacts.

Lemma is_Some_list_find_fmap {A : Type} (f : A → string) (l : list A) (n : string) :
  is_Some (snd <$> list_find (λ c, f c = n) l) ↔ n ∈ f <$> l.
Proof.
  rewrite fmap_is_Some. split.
  - intros [[i c] H]. apply list_find_Some in H as (Hi & <- & _).
    apply list_elem_of_fmap_2. by eapply list_elem_of_lookup_2.
  - intros H. apply list_elem_of_fmap in H as (c & -> & Hc).
    apply list_elem_of_lookup in Hc as [i Hi].
    destruct (list_find_elem_of (λ c', f c' = f c) l c) as [[j c'] Hf]; [|done|].
    + by eapply list_elem_of_lookup_2.
    + by eexists.
Qed.

Lemma phases_run_chain {State : Type} (ids : list string) (DONE_EVENT : string)
    (self : FSMBehaviour State) :
  NoDup ids →
  (∀ src ev dst, next_state self src ev = Some dst ↔
     ev = Some DONE_EVENT ∧ consecutive ids src dst) →
  ∀ (fuel k : nat) (self' : FSMBehaviour State),
    transitions self' = transitions self →
    current self' = ids !! k →
    phases_run fuel self' (Some DONE_EVENT) = take fuel (drop k ids).
Proof.
  intros Hnd Hnext. induction fuel as [|fuel IH]; intros k self' Ht Hc.
  { by rewrite take_0. }
  cbn [phases_run]. rewrite Hc.
  destruct (ids !! k) as [cur|] eqn:Ek.
  - rewrite (drop_S _ _ _ Ek). cbn [take]. f_equal.
    apply IH.
    + unfold act_done. by rewrite Hc.
    + unfold act_done. rewrite Hc. cbn [current].
      rewrite (next_state_transitions self self' Ht).
      destruct (ids !! S k) as [nxt|] eqn:Ek'.
      * apply Hnext. split; [done|]. by exists k.
      * destruct (next_state self cur (Some DONE_EVENT)) as [d|] eqn:Ed; [|done].
        apply Hnext in Ed as (_ & i & Hi & Hi').
        pose proof (NoDup_lookup _ _ _ _ Hnd Hi Ek) as ->. congruence.
  - apply lookup_ge_None in Ek. by rewrite drop_ge.
Qed.

Section RegisterStatesOnto.
Context {StateCls : Type} (state_id : StateCls → string) (DONE_EVENT : string).
Implicit Types self : FSMBehaviour StateCls.
Implicit Types state_classes : list StateCls.

(** The loop over the consecutive pairs, started on a machine [self0] that
    may hold transitions already. *)
Lemma register_each_transition_onto state_classes self0 :
  NoDup (state_id <$> state_classes) →
  (∀ src dst, consecutive (state_id <$> state_classes) src dst →
              next_state self0 src (Some DONE_EVENT) = None) →
  ∀ (m j : nat) self,
    (j + m = length state_classes - 1)%nat →
    (∀ src ev dst, next_state self src ev = Some dst ↔
       next_state self0 src ev = Some dst
       ∨ (ev = Some DONE_EVENT ∧
          ∃ i : nat, (i < j)%nat ∧ (state_id <$> state_classes) !! i = Some src
                     ∧ (state_id <$> state_classes) !! S i = Some dst)) →
    ∃ self',
      for_each
        (λ self index,
           before ← list_get state_classes index;
           after ← list_get state_classes (index + 1);
           register_transition self (state_id before) (state_id after)
                               (Some DONE_EVENT))
        (seq j m) self = Ok self'
      ∧ name_to_state self' = name_to_state self
      ∧ initial_state self' = initial_state self
      ∧ current self' = current self
      ∧ ∀ src ev dst, next_state self' src ev = Some dst ↔
          next_state self0 src ev = Some dst
          ∨ (ev = Some DONE_EVENT ∧
             ∃ i : nat, (i < j + m)%nat ∧ (state_id <$> state_classes) !! i = Some src
                        ∧ (state_id <$> state_classes) !! S i = Some dst).
Proof.
  intros Hnd Hfree. induction m as [|m IH]; intros j self Hlen Hinv.
  { exists self. split_and!; try reflexivity.
    intros src ev dst. rewrite Hinv. by rewrite Nat.add_0_r. }
  destruct (lookup_lt_is_Some_2 state_classes j) as [before Hb]; [lia|].
  destruct (lookup_lt_is_Some_2 state_classes (S j)) as [after Ha]; [lia|].
  assert (Hidb : (state_id <$> state_classes) !! j = Some (state_id before))
    by (by rewrite list_lookup_fmap, Hb).
  assert (Hida : (state_id <$> state_classes) !! S j = Some (state_id after))
    by (by rewrite list_lookup_fmap, Ha).
  assert (Hfree0 : next_state self0 (state_id before) (Some DONE_EVENT) = None).
  { apply (Hfree _ (state_id after)). by exists j. }
  destruct (register_transition_free self (state_id before) (state_id after)
              (Some DONE_EVENT)) as (self1 & E1 & Hn1 & Hi1 & Hc1 & Hnext1).
  { destruct (next_state self _ _) as [d|] eqn:Hd; [|done].
    apply Hinv in Hd as [Hd|(_ & i & Hi & Hsrc & _)]; [congruence|].
    pose proof (NoDup_lookup _ _ _ _ Hnd Hsrc Hidb). lia. }
  destruct (IH (S j) self1) as (self2 & E2 & Hn2 & Hi2 & Hc2 & Hnext2); [lia|..].
  { intros src ev dst. rewrite Hnext1. destruct (decide _) as [[-> ->]|Hne].
    - split.
      + intros [= <-]. right. split; [done|]. exists j. split_and!; [lia|done..].
      + intros [Hd|(_ & i & Hi & Hsrc & Hdst)]; [congruence|].
        pose proof (NoDup_lookup _ _ _ _ Hnd Hsrc Hidb) as ->. congruence.
    - rewrite Hinv. split.
      + intros [Hd|(Hev & i & Hi & Hsrc & Hdst)]; [by left|]. right.
        split; [done|]. exists i. split_and!; [lia|done..].
      + intros [Hd|(Hev & i & Hi & Hsrc & Hdst)]; [by left|]. right.
        split; [done|]. exists i. split_and!; [|done..].
        destruct (decide (i = j)) as [->|]; [|lia].
        exfalso. apply Hne. split; congruence. }
  exists self2. split_and!; try congruence.
  - cbn [seq for_each].
    rewrite (list_get_lookup _ _ _ Hb), bind_Ok.
    replace (j + 1)%nat with (S j) by lia.
    rewrite (list_get_lookup _ _ _ Ha), bind_Ok.
    rewrite E1, bind_Ok. exact E2.
  - intros src ev dst. rewrite Hnext2.
    by replace (S j + m)%nat with (j + S m)%nat by lia.
Qed.

(** The same loop when one of the sources has a transition on [DONE_EVENT]
    already. *)
Lemma register_each_transition_refused state_classes self0 :
  NoDup (state_id <$> state_classes) →
  ∀ (m j : nat) self,
    (j + m = length state_classes - 1)%nat →
    (∀ (i : nat) src, (j ≤ i)%nat → (state_id <$> state_classes) !! i = Some src →
       next_state self src (Some DONE_EVENT) = next_state self0 src (Some DONE_EVENT)) →
    (∃ (i : nat) src, (j ≤ i < j + m)%nat
       ∧ (state_id <$> state_classes) !! i = Some src
       ∧ is_Some (next_state self0 src (Some DONE_EVENT))) →
    for_each
      (λ self index,
         before ← list_get state_classes index;
         after ← list_get state_classes (index + 1);
         register_transition self (state_id before) (state_id after)
                             (Some DONE_EVENT))
      (seq j m) self = Err (ValueError "Transition already registered.").
Proof.
  intros Hnd. induction m as [|m IH]; intros j self Hlen Hsame Htaken.
  { destruct Htaken as (i & _ & Hi & _). lia. }
  destruct (lookup_lt_is_Some_2 state_classes j) as [before Hb]; [lia|].
  destruct (lookup_lt_is_Some_2 state_classes (S j)) as [after Ha]; [lia|].
  assert (Hidb : (state_id <$> state_classes) !! j = Some (state_id before))
    by (by rewrite list_lookup_fmap, Hb).
  cbn [seq for_each].
  rewrite (list_get_lookup _ _ _ Hb), bind_Ok.
  replace (j + 1)%nat with (S j) by lia.
  rewrite (list_get_lookup _ _ _ Ha), bind_Ok.
  destruct (next_state self (state_id before) (Some DONE_EVENT)) as [d|] eqn:Hd.
  { rewrite register_transition_taken by (by eexists). done. }
  destruct (register_transition_free self (state_id before) (state_id after)
              (Some DONE_EVENT) Hd) as (self1 & E1 & _ & _ & _ & Hnext1).
  rewrite E1, bind_Ok. apply IH; [lia|..].
  - intros i src Hi Hsrc. rewrite Hnext1. rewrite decide_False.
    + apply (Hsame i src); [lia|exact Hsrc].
    + intros [-> _]. pose proof (NoDup_lookup _ _ _ _ Hnd Hsrc Hidb). lia.
  - destruct Htaken as (i & src & Hi & Hsrc & Hsome).
    exists i, src. split; [|by split].
    destruct (decide (i = j)) as [->|]; [|lia].
    rewrite Hidb in Hsrc. injection Hsrc as <-.
    rewrite <- (Hsame j (state_id before)), Hd in Hsome by done.
    by destruct Hsome.
Qed.

(** [_register_states] refuses a list with a state id that occurs twice or
    is registered already. *)
Lemma register_states_refused self state_classes :
  state_classes ≠ [] →
  ¬ NoDup (state_id <$> state_classes)
  ∨ (∃ c, c ∈ state_classes ∧ is_Some (name_to_state self !! state_id c)) →
  _register_states state_id DONE_EVENT self state_classes
  = Err (ValueError "State name already existing.").
Proof.
  intros Hne Hclash. destruct state_classes as [|first rest]; [done|].
  unfold _register_states. cbn [length Nat.eqb negb enforce].
  rewrite bind_Ok, (list_get_lookup _ 0%nat first), bind_Ok by done.
  change (_register_state state_id self first true)
    with (register_state self (state_id first) first true).
  destruct (name_to_state self !! state_id first) as [c0|] eqn:Ef.
  { rewrite register_state_taken by (by eexists). done. }
  destruct (register_state_fresh self (state_id first) first true Ef)
    as (s1 & E1 & Hn1 & _).
  rewrite E1, bind_Ok. change (drop 1 (first :: rest)) with rest.
  rewrite (register_each_state_clash state_id); [done|].
  destruct (decide (state_id first ∈ state_id <$> rest)) as [Hin|Hnin].
  { left. apply list_elem_of_fmap in Hin as (c' & E & Hc').
    exists c'. split; [done|]. rewrite Hn1, <- E, lookup_insert_eq. by eexists. }
  destruct Hclash as [Hnd|(c & Hc & Hsome)].
  - right. intros Hl. apply Hnd. rewrite fmap_cons. by constructor.
  - left. apply elem_of_cons in Hc as [->|Hc].
    { rewrite Ef in Hsome. by destruct Hsome. }
    exists c. split; [done|]. rewrite Hn1, lookup_insert_ne; [done|].
    intros E. apply Hnin. rewrite E. by apply list_elem_of_fmap_2.
Qed.
End RegisterStatesOnto.

Section RegisterStatesTheorem.
Context {StateCls : Type} (state_id : StateCls → string) (DONE_EVENT : string).
Implicit Types self : FSMBehaviour StateCls.
Implicit Types state_classes : list StateCls.

(** Registering the states of a list with distinct, unused state ids. *)
Lemma register_states_states self first rest :
  NoDup (state_id <$> first :: rest) →
  (∀ c, c ∈ first :: rest → name_to_state self !! state_id c = None) →
  ∃ s1 s2,
    register_state self (state_id first) first true = Ok s1
    ∧ for_each (λ self state_cls, _register_state state_id self state_cls false)
               rest s1 = Ok s2
    ∧ transitions s2 = transitions self
    ∧ initial_state s2 = Some (state_id first)
    ∧ current s2 = Some (state_id first)
    ∧ (∀ c, c ∈ first :: rest → name_to_state s2 !! state_id c = Some c)
    ∧ (∀ n, n ∉ state_id <$> first :: rest →
            name_to_state s2 !! n = name_to_state self !! n).
Proof.
  intros Hnd Hfresh. pose proof Hnd as Hnd'.
  rewrite fmap_cons in Hnd'. apply NoDup_cons in Hnd' as [Hfirst Hrest].
  destruct (register_state_fresh self (state_id first) first true)
    as (s1 & E1 & Hn1 & Ht1 & Hi1 & Hc1); [apply Hfresh; left|].
  destruct (register_each_state state_id rest s1 Hrest)
    as (s2 & E2 & Ht2 & Hi2 & Hc2 & Hn2).
  { intros c Hc. rewrite Hn1, lookup_insert_ne; [apply Hfresh; by right|].
    intros E. apply Hfirst. rewrite E. by apply list_elem_of_fmap_2. }
  exists s1, s2. split_and!; try congruence.
  - intros c Hc. rewrite Hn2.
    destruct (list_find (λ c', state_id c' = state_id c) rest) as [[i c']|] eqn:Hf.
    + apply list_find_Some in Hf as (Hi & Hid & _). f_equal.
      apply elem_of_cons in Hc as [->|Hc].
      * exfalso. apply Hfirst. rewrite <- Hid. apply list_elem_of_fmap_2.
        by eapply list_elem_of_lookup_2.
      * apply list_elem_of_lookup in Hc as [j Hj].
        assert (i = j) as ->; [|congruence].
        apply (NoDup_lookup _ _ _ (state_id c) Hrest);
          rewrite list_lookup_fmap; [by rewrite Hi; simpl; f_equal|by rewrite Hj].
    + apply elem_of_cons in Hc as [->|Hc].
      * by rewrite Hn1, lookup_insert_eq.
      * exfalso. apply list_elem_of_lookup in Hc as [j Hj].
        eapply list_find_None in Hf. eapply Forall_lookup_1 in Hf; [|exact Hj].
        by apply Hf.
  - intros n Hn. rewrite Hn2.
    destruct (list_find (λ c', state_id c' = n) rest) as [[i c']|] eqn:Hf.
    + apply list_find_Some in Hf as (Hi & Hid & _). exfalso. apply Hn.
      rewrite <- Hid. apply list_elem_of_fmap_2. right.
      by eapply list_elem_of_lookup_2.
    + rewrite Hn1, lookup_insert_ne; [done|]. intros <-. apply Hn.
      rewrite fmap_cons. left.
Qed.

(** C7, as the code has it.  [_register_states] raises [ValueError] on the
    empty list.  On a non-empty list of classes whose state ids are pairwise
    distinct and not in use on the behaviour, no state being registered
    under one of them and no transition on [DONE_EVENT] from one that has a
    successor in the list (so on a fresh behaviour), it registers every class
    under its state id, the first one as the initial state, and one
    transition for every two consecutive classes, from the state id of the
    first to that of the second on [DONE_EVENT]; what was registered before
    stays, and nothing else is added.  A list that repeats a state id or
    names a registered one, or a source that has a transition on
    [DONE_EVENT], is refused with [ValueError]. *)
Theorem register_states_of_distinct_ids self state_classes :
  _register_states state_id DONE_EVENT self []
  = Err (ValueError "empty list of state classes")
  ∧ (state_classes ≠ [] →
     NoDup (state_id <$> state_classes) →
     (∀ c, c ∈ state_classes → name_to_state self !! state_id c = None) →
     (∀ src dst, consecutive (state_id <$> state_classes) src dst →
                 next_state self src (Some DONE_EVENT) = None) →
     ∃ fsm,
       _register_states state_id DONE_EVENT self state_classes = Ok fsm
       ∧ initial_state fsm = state_id <$> head state_classes
       ∧ current fsm = state_id <$> head state_classes
       ∧ (∀ c, c ∈ state_classes → name_to_state fsm !! state_id c = Some c)
       ∧ (∀ n, n ∉ state_id <$> state_classes →
               name_to_state fsm !! n = name_to_state self !! n)
       ∧ ∀ src ev dst, next_state fsm src ev = Some dst ↔
           next_state self src ev = Some dst
           ∨ (ev = Some DONE_EVENT ∧ consecutive (state_id <$> state_classes) src dst))
  ∧ (state_classes ≠ [] →
     ¬ NoDup (state_id <$> state_classes)
     ∨ (∃ c, c ∈ state_classes ∧ is_Some (name_to_state self !! state_id c)) →
     _register_states state_id DONE_EVENT self state_classes
     = Err (ValueError "State name already existing."))
  ∧ (state_classes ≠ [] →
     NoDup (state_id <$> state_classes) →
     (∀ c, c ∈ state_classes → name_to_state self !! state_id c = None) →
     (∃ src dst, consecutive (state_id <$> state_classes) src dst
                 ∧ is_Some (next_state self src (Some DONE_EVENT))) →
     _register_states state_id DONE_EVENT self state_classes
     = Err (ValueError "Transition already registered.")).
Proof.
  split; [reflexivity|]. split; [|split].
  - intros Hne Hnd Hfresh Hfree. destruct state_classes as [|first rest]; [done|].
    destruct (register_states_states self first rest Hnd Hfresh)
      as (s1 & s2 & E1 & E2 & Ht2 & Hi2 & Hc2 & Hin2 & Hout2).
    destruct (register_each_transition_onto state_id DONE_EVENT (first :: rest) self
                Hnd Hfree (length rest) 0 s2)
      as (s3 & E3 & Hn3 & Hi3 & Hc3 & Hnext3).
    { simpl. lia. }
    { intros src ev dst. rewrite (next_state_transitions self s2 Ht2). split.
      - by left.
      - intros [?|(_ & i & Hi & _)]; [done|lia]. }
    exists s3. split_and!.
    + unfold _register_states. cbn [length Nat.eqb negb enforce].
      rewrite bind_Ok, (list_get_lookup _ 0%nat first), bind_Ok by done.
      change (_register_state state_id self first true)
        with (register_state self (state_id first) first true).
      rewrite E1, bind_Ok. change (drop 1 (first :: rest)) with rest.
      rewrite E2, bind_Ok. rewrite Nat.sub_succ, Nat.sub_0_r. exact E3.
    + by rewrite Hi3, Hi2.
    + by rewrite Hc3, Hc2.
    + intros c Hc. rewrite Hn3. by apply Hin2.
    + intros n Hn. rewrite Hn3. by apply Hout2.
    + intros src ev dst. rewrite Hnext3. unfold consecutive. simpl.
      split; (intros [?|(Hev & i & H)]; [by left|right]); (split; [done|]);
        exists i.
      * tauto.
      * destruct H as [Hs Hd]. split_and!; [|done..].
        apply lookup_lt_Some in Hd. rewrite length_fmap in Hd. simpl in Hd. lia.
  - intros Hne Hclash. by apply register_states_refused.
  - intros Hne Hnd Hfresh (src & dst & (i & Hsrc & Hdst) & Hsome).
    destruct state_classes as [|first rest]; [done|].
    destruct (register_states_states self first rest Hnd Hfresh)
      as (s1 & s2 & E1 & E2 & Ht2 & _).
    unfold _register_states. cbn [length Nat.eqb negb enforce].
    rewrite bind_Ok, (list_get_lookup _ 0%nat first), bind_Ok by done.
    change (_register_state state_id self first true)
      with (register_state self (state_id first) first true).
    rewrite E1, bind_Ok. change (drop 1 (first :: rest)) with rest.
    rewrite E2, bind_Ok. rewrite Nat.sub_succ, Nat.sub_0_r.
    apply (register_each_transition_refused state_id DONE_EVENT (first :: rest) self
             Hnd (length rest) 0 s2).
    + simpl. lia.
    + intros j src' _ _. apply (next_state_transitions self s2 Ht2).
    + exists i, src. split_and!; [lia| |done..].
      apply lookup_lt_Some in Hdst. rewrite length_fmap in Hdst. simpl in Hdst. lia.
Qed.
End RegisterStatesTheorem.

(** C6. [setup] registers exactly the nine phases, with the initial delay
    as the initial state.  The transitions of the machine are those from
    each phase to the next one in the list, each on [DONE_EVENT] and on no
    other event, and there is no other transition: [end] has no successor,
    no phase occurs twice, and a machine whose states all end with
    [DONE_EVENT] goes through the nine phases in order and then stops. *)
Theorem phase_chain_is_linear (DONE_EVENT : string) :
  let phases := ["initial_delay"; "register"; "deploy_safe"; "observe"; "estimate";
                 "tx_hash"; "sign"; "finalize"; "end"] in
  ∃ fsm,
    setup DONE_EVENT = Ok fsm
    ∧ initial_state fsm = Some "initial_delay"
    ∧ current fsm = Some "initial_delay"
    ∧ (∀ n, is_Some (name_to_state fsm !! n) ↔ n ∈ phases)
    ∧ (∀ src ev dst, next_state fsm src ev = Some dst ↔
         ev = Some DONE_EVENT ∧ consecutive phases src dst)
    ∧ (∀ ev, next_state fsm "end" ev = None)
    ∧ NoDup phases
    ∧ ∀ fuel, phases_run fuel fsm (Some DONE_EVENT) = take fuel phases.
Proof.
  intros phases.
  assert (Hnd : NoDup phases) by (subst phases; compute_done).
  destruct (register_states_chain state_id DONE_EVENT setup_state_classes
              InitialDelayState (tail setup_state_classes) eq_refl Hnd)
    as (fsm & E & Hi & Hc & Hn & Hnext).
  exists fsm. split; [exact E|]. split; [exact Hi|]. split; [exact Hc|].
  split; [|split; [exact Hnext|split; [|split; [exact Hnd|]]]].
  - intros n. rewrite Hn. apply is_Some_list_find_fmap.
  - intros ev. destruct (next_state fsm "end" ev) as [d|] eqn:Ed; [|reflexivity].
    apply Hnext in Ed as (_ & i & Hi' & Hd).
    change (state_id <$> setup_state_classes) with phases in *.
    assert (phases !! 8%nat = Some "end") as H8 by reflexivity.
    pose proof (NoDup_lookup _ _ _ _ Hnd Hi' H8) as ->. discriminate Hd.
  - intros fuel.
    rewrite (phases_run_chain phases DONE_EVENT fsm Hnd Hnext fuel 0 fsm eq_refl Hc).
    reflexivity.
Qed.

(** ** Runs of the behaviours *)

Section BehaviourFacts.
Context {float : Type}.
Variable toChecksumAddress : string → string.
Variable _get_safe_tx : string → string → bytes → SafeTx.

Implicit Types ctx : SkillContext float.
Implicit Types ps : PeriodState float.
Implicit Types tr : list (obs float).

Lemma run_exec {R W : Type} (respond : ∀ X, action float X → W → X * W)
    (p : prog float R) : ∀ w, exec p (run respond p w).1 (run respond p w).2.
Proof.
  induction p as [r|e|X a k IH]; intros w; simpl; [done..|].
  destruct (respond X a w) as [x w'] eqn:E.
  specialize (IH x w'). destruct (run respond (k x) w') as [tr o].
  simpl in *. eauto.
Qed.

Lemma exec_bind {A B : Type} (f : A → prog float B) (m : prog float A) :
  ∀ tr o, exec (prog_bind f m) tr o ↔
    (∃ tr1 r tr2, exec m tr1 (Returned r) ∧ exec (f r) tr2 o ∧ tr = tr1 ++ tr2)
    ∨ (∃ e, exec m tr (Raised e) ∧ o = Raised e).
Proof.
  induction m as [r|e|X a k IH]; intros tr o; simpl.
  - split.
    + intros H. left. exists [], r, tr. done.
    + intros [(tr1 & r' & tr2 & [-> [= ->]] & H' & ->)|(e & [_ [=]] & _)]. done.
  - split.
    + intros [-> ->]. right. by exists e.
    + intros [(tr1 & r' & tr2 & [_ [=]] & _)|(e' & [-> [= ->]] & ->)]. done.
  - split.
    + intros (x & tr' & -> & H). apply IH in H as
        [(tr1 & r & tr2 & H1 & H2 & ->)|(e & H1 & ->)].
      * left. exists (Obs a x :: tr1), r, tr2. split_and!; [|done..].
        by exists x, tr1.
      * right. exists e. split; [|done]. by exists x, tr'.
    + intros [(tr1 & r & tr2 & (x & tr' & -> & H1) & H2 & ->)
             |(e & (x & tr' & -> & H1) & ->)].
      * exists x, (tr' ++ tr2). split; [done|]. apply IH. left.
        by exists tr', r, tr2.
      * exists x, tr'. split; [done|]. apply IH. right. by exists e.
Qed.

(** Taking a run of a behaviour apart, one observed step at a time. *)
Ltac exec_inv H :=
  repeat first
    [ progress cbn [exec prog_bind mbind prog_mbind mret prog_mret trigger lift
                    logger_info] in H
    | match type of H with
      | ∃ _, _ => let x := fresh "x" in let tr := fresh "tr" in
                  destruct H as (x & tr & -> & H)
      | _ ∧ _ => destruct H as [-> ->]
      | context [decide ?P] => destruct (decide P)
      | context [unhexlify ?s] => destruct (unhexlify s) eqn:?
      | context [compose_final_signature ?s] =>
          destruct (compose_final_signature s) eqn:?
      | context [dict_get_int ?d ?k] => destruct (dict_get_int d k) eqn:?
      | context [lift ?r] => destruct r eqn:?
      | context [let '(_, _) := ?p in _] => destruct p
      end ].

Ltac unfold_behaviours H :=
  unfold async_act, InitialDelayState_async_act, RegistrationBehaviour_async_act,
    DeploySafeBehaviour_async_act, DeploySafeBehaviour_deployer_act,
    DeploySafeBehaviour_not_deployer_act,
    DeploySafeBehaviour__send_deploy_transaction,
    ObserveBehaviour_async_act, EstimateBehaviour_async_act,
    TransactionHashBehaviour_async_act, TransactionHashBehaviour_sender_act,
    TransactionHashBehaviour_not_sender_act,
    SignatureBehaviour_async_act, SignatureBehaviour__get_safe_tx_signature,
    FinalizeBehaviour_async_act, FinalizeBehaviour_sender_act,
    FinalizeBehaviour_not_sender_act, FinalizeBehaviour__send_safe_transaction,
    EndBehaviour_async_act in H.

Ltac read_trace :=
  cbn [submitted_payloads raw_transactions deploy_requests signing_requests
       period_state_reads logged built_safe_txs chain_writes omap list_omap
       length Nat.add lookup list_lookup] in *.

Ltac read_more :=
  cbn [submitted_payloads raw_transactions deploy_requests signing_requests
       period_state_reads logged built_safe_txs chain_writes done_signals
       waited_rounds stop_conditions price_requests deploy_answers
       raw_transaction_hashes simulated_calls gas_price_requests build_requests
       omap list_omap length Nat.add lookup list_lookup] in *.

Ltac unit_eq := repeat match goal with u : unit |- _ => destruct u end.

(** C10. Every payload a behaviour submits, in whichever of the nine
    phases, has the address of the submitting agent in its sender field. *)
Theorem payloads_carry_own_address (cls : behaviour_cls) ctx tr (o : outcome ()) :
  exec (async_act float toChecksumAddress _get_safe_tx cls ctx) tr o →
  Forall (λ p, payload_sender p = agent_address ctx) (submitted_payloads tr).
Proof.
  intros H. destruct cls; unfold_behaviours H; exec_inv H; read_trace;
    repeat constructor.
Qed.

(** C5. In the Deploy-Safe, TxHash and Finalize phases the behaviour
    branches on the period state it reads first.  An agent whose address
    differs from the designated sender recorded there writes nothing to the
    chain (no multisig deployment, no transaction sent), submits no
    payload, logs that it waits, and completes the phase; so a run that
    does write to the chain or submits a payload is a run of the
    designated sender. *)
Theorem only_designated_sender_writes (cls : behaviour_cls) ctx tr (o : outcome ()) :
  cls ∈ [DeploySafeBehaviour; TransactionHashBehaviour; FinalizeBehaviour] →
  exec (async_act float toChecksumAddress _get_safe_tx cls ctx) tr o →
  ∃ ps, period_state_reads tr !! 0%nat = Some ps
    ∧ (agent_address ctx ≠ safe_sender_address ps →
         chain_writes tr = 0%nat
         ∧ submitted_payloads tr = []
         ∧ logged tr !! 0%nat
           = Some "I am not the designated sender, waiting until next round..."
         ∧ o = Returned ())
    ∧ (chain_writes tr ≠ 0%nat ∨ submitted_payloads tr ≠ [] →
         agent_address ctx = safe_sender_address ps).
Proof.
  intros Hcls H.
  rewrite !elem_of_cons, elem_of_nil in Hcls.
  destruct Hcls as [->|[->|[->|[]]]].
  all: unfold_behaviours H; exec_inv H; read_trace.
  all: eexists; split; [reflexivity|].
  all: split; [intros Hne|intros Hw].
  all: try (by apply dec_stable).
  all: try (exfalso; tauto).
  all: repeat match goal with u : unit |- _ => destruct u end.
  all: by split_and!.
Qed.

(** C8. In the Signature phase every agent, designated or not, asks the
    signing oracle once for a signature over the bytes of the agreed
    transaction hash, in the deprecated raw-hash mode
    ([is_deprecated_mode=True]), and submits one Signature payload whose
    signature is the body of the oracle's answer without its first two
    characters: without the prefix [0x] when the body starts with it. *)
Theorem signature_phase_signs_agreed_hash ctx tr (o : outcome ()) ps
    (hash_bytes : bytes) :
  exec (SignatureBehaviour_async_act float ctx) tr o →
  period_state_reads tr !! 0%nat = Some ps →
  unhexlify (safe_tx_hash_hex ps) = Some hash_bytes →
  ∃ response : SigningMessage,
    Obs WaitForMessage response ∈ tr
    ∧ signing_requests tr = [(hash_bytes, true)]
    ∧ submitted_payloads tr
      = [SignaturePayload (agent_address ctx)
           (str_drop 2 (body (signed_message response)))]
    ∧ ∀ signature_hex : string,
        body (signed_message response) = String "0" (String "x" signature_hex) →
        submitted_payloads tr
        = [SignaturePayload (agent_address ctx) signature_hex].
Proof.
  intros H Hread Hhash. unfold_behaviours H. exec_inv H; read_trace.
  all: injection Hread as ->.
  all: rewrite Hhash in *; simplify_eq.
  eexists. split; [|split; [reflexivity|split; [reflexivity|]]].
  - repeat first [apply list_elem_of_here | apply list_elem_of_further].
  - intros signature_hex E. by rewrite E.
Qed.

(** C4, as the code has it.  The Signature phase does not check the answer
    of the signing oracle for prefix or length: when the phase completes,
    the payload it has submitted carries the body of the answer without its
    first two characters, whatever the body is, and for every body there is
    such a run.  When the body has the expected format, the prefix [0x] and
    130 hexadecimal digits, the payload carries these 130 digits, which
    decode to [SIGNATURE_LENGTH = 65] bytes. *)
Theorem signature_phase_submits_any_response ctx :
  (∀ tr, exec (SignatureBehaviour_async_act float ctx) tr (Returned ()) →
     ∃ response : SigningMessage,
       Obs WaitForMessage response ∈ tr
       ∧ submitted_payloads tr
         = [SignaturePayload (agent_address ctx)
              (str_drop 2 (body (signed_message response)))]
       ∧ (signature_response_ok (body (signed_message response)) = true →
          ∃ signature_bytes : bytes,
            unhexlify (str_drop 2 (body (signed_message response)))
            = Some signature_bytes
            ∧ length signature_bytes = SIGNATURE_LENGTH))
  ∧ (∀ ps (hash_bytes : bytes) (response_body : string),
       unhexlify (safe_tx_hash_hex ps) = Some hash_bytes →
       ∃ tr, exec (SignatureBehaviour_async_act float ctx) tr (Returned ())
         ∧ period_state_reads tr = [ps]
         ∧ Obs WaitForMessage (mkSigningMessage (mkSignedMessage response_body)) ∈ tr
         ∧ submitted_payloads tr
           = [SignaturePayload (agent_address ctx) (str_drop 2 response_body)]).
Proof.
  split.
  - intros tr H. unfold_behaviours H.
    remember (Returned ()) as o eqn:Ho.
    exec_inv H; read_more; try discriminate Ho.
    eexists. split; [|split; [reflexivity|]].
    + repeat first [apply list_elem_of_here | apply list_elem_of_further].
    + intros Hok.
      match goal with r : SigningMessage |- _ => destruct r as [[b]] end.
      simpl in *.
      apply signature_response_ok_inv in Hok as (hex & -> & Hlen & [sb Hsb]).
      exists sb. split; [done|].
      apply unhexlify_length in Hsb. unfold SIGNATURE_LENGTH in *. lia.
  - intros ps hash_bytes response_body Hhash.
    exists [Obs (LogStart "sign") (); Obs ReadPeriodState ps;
            Obs (SendSigningRequest hash_bytes true) ();
            Obs WaitForMessage (mkSigningMessage (mkSignedMessage response_body));
            Obs (LoggerInfo "Signature: {}" [PyStr (str_drop 2 response_body)]) ();
            Obs (SendTransaction
                   (SignaturePayload (agent_address ctx) (str_drop 2 response_body))
                   CollectSignatureRound) ();
            Obs (WaitUntilRoundEnd CollectSignatureRound) ();
            Obs (LogEnd "sign") (); Obs SetDone ()].
    split; [|split; [reflexivity|split; [|reflexivity]]].
    + unfold SignatureBehaviour_async_act, SignatureBehaviour__get_safe_tx_signature.
      cbn [exec prog_bind mbind prog_mbind mret prog_mret trigger].
      eexists _, _. split; [reflexivity|].
      eexists _, _. split; [reflexivity|]. rewrite Hhash.
      cbn [exec prog_bind mbind prog_mbind mret prog_mret trigger].
      repeat (eexists _, _; split; [reflexivity|]). done.
    + repeat first [apply list_elem_of_here | apply list_elem_of_further].
Qed.


(** C2. Every transaction the Finalize phase sends for inclusion is the
    transaction the chain client built, with its gas replaced by
    [max(g + 75000, r)], where [g] is the gas the chain client estimated and
    [r] the recommended gas of the Safe transaction, and with its nonce set
    to the transaction count of the agent's own (checksum) address. *)
Theorem finalize_gas_and_nonce ctx tr (o : outcome string) tx :
  exec (FinalizeBehaviour__send_safe_transaction float toChecksumAddress
          _get_safe_tx ctx) tr o →
  tx ∈ raw_transactions tr →
  ∃ (safe_tx : SafeTx) (tx_parameters transaction_dict : gmap string (pyvalue float))
    (g n : Z),
    Obs (BuildTransaction safe_tx tx_parameters) transaction_dict ∈ tr
    ∧ tx_parameters !! "from" = Some (PyStr (agent_address ctx))
    ∧ transaction_dict !! "gas" = Some (PyInt g)
    ∧ Obs (EthGetTransactionCount (toChecksumAddress (agent_address ctx))) n ∈ tr
    ∧ tx !! "gas" = Some (PyInt (Z.max (g + 75000) (recommended_gas safe_tx)))
    ∧ tx !! "nonce" = Some (PyInt n)
    ∧ (∀ key, key ≠ "gas" → key ≠ "nonce" → tx !! key = transaction_dict !! key)
    ∧ raw_transactions tr = [tx].
Proof.
  intros H Htx. unfold_behaviours H. exec_inv H; read_trace.
  all: try (by apply elem_of_nil in Htx).
  all: apply list_elem_of_singleton in Htx as ->.
  all: match goal with
       | E : dict_get_int ?d "gas" = Ok ?g |- _ =>
           unfold dict_get_int in E;
           destruct (d !! "gas") as [[]|] eqn:Egas; simplify_eq
       end.
  all: eexists _, _, _, _, _.
  all: split; [repeat first [apply list_elem_of_here | apply list_elem_of_further]|].
  all: split; [by rewrite lookup_insert_ne, lookup_insert_eq|].
  all: split; [exact Egas|].
  all: split; [repeat first [apply list_elem_of_here | apply list_elem_of_further]|].
  all: split; [by rewrite lookup_insert_ne, lookup_insert_eq|].
  all: split; [by rewrite lookup_insert_eq|].
  all: split; [|reflexivity].
  all: intros key Hg Hn; by rewrite !lookup_insert_ne.
Qed.

Lemma compose_loop (sigs : gmap string string) (sig : string → bytes) :
  ∀ (signers : list string) (final_signature : bytes),
    (∀ a h, a ∈ signers → sigs !! a = Some h → unhexlify h = Some (sig a)) →
    for_each
      (λ final_signature signer,
         match sigs !! signer with
         | None => Ok final_signature
         | Some signature =>
             match unhexlify signature with
             | None => Err BinasciiError
             | Some signature_bytes => Ok (final_signature ++ signature_bytes)
             end
         end)
      signers final_signature
    = Ok (final_signature
          ++ concat (sig <$> filter (λ a, is_Some (sigs !! a)) signers)).
Proof.
  induction signers as [|a l IH]; intros acc Hhex.
  { simpl. by rewrite app_nil_r. }
  cbn [for_each]. rewrite filter_cons.
  destruct (sigs !! a) as [h|] eqn:Ea.
  - rewrite (Hhex a h) by (done || left). rewrite bind_Ok.
    rewrite decide_True by (by eexists).
    rewrite IH by (intros a' h' Ha'; apply Hhex; by right).
    rewrite fmap_cons. simpl. by rewrite app_assoc.
  - rewrite bind_Ok. rewrite decide_False by (by intros [? ?]).
    apply IH. intros a' h' Ha'. apply Hhex. by right.
Qed.

Lemma sorted_filter_elements (P : string → Prop) `{!∀ a, Decision (P a)}
    (X : gset string) :
  filter P (merge_sort String.le (elements X))
  = merge_sort String.le (elements (filter P X)).
Proof.
  apply (StronglySorted_unique String.le).
  - apply StronglySorted_filter, StronglySorted_merge_sort; apply _.
  - apply StronglySorted_merge_sort; apply _.
  - rewrite !merge_sort_Permutation. apply NoDup_Permutation.
    + apply NoDup_filter, NoDup_elements.
    + apply NoDup_elements.
    + intros a. rewrite list_elem_of_filter, !elem_of_elements, elem_of_filter.
      done.
Qed.

(** C1. When the recorded signatures of the participants are hexadecimal
    strings, [sig a] being the bytes of the signature of [a], the final
    signature is the concatenation of [sig a] over the participants [a] with
    a recorded signature, in ascending order of address; participants
    without a recorded signature add nothing.  It is the signature every
    Safe transaction handed to the chain client carries, and it is the same
    for whichever order the signatures were recorded in. *)
Theorem final_signature_in_address_order ps (sig : string → bytes) :
  (∀ a h, a ∈ participants ps → participant_to_signature ps !! a = Some h →
          unhexlify h = Some (sig a)) →
  compose_final_signature ps
  = Ok (finalSignature_spec (signed_participants ps) sig)
  ∧ signed_participants ps ⊆ participants ps
  ∧ (∀ a, a ∈ signed_participants ps ↔
          a ∈ participants ps ∧ is_Some (participant_to_signature ps !! a))
  ∧ (∀ ctx tr (o : outcome string),
       exec (FinalizeBehaviour__send_safe_transaction float toChecksumAddress
               _get_safe_tx ctx) tr o →
       period_state_reads tr !! 0%nat = Some ps →
       Forall (λ safe_tx, signatures safe_tx
                 = finalSignature_spec (signed_participants ps) sig)
              (built_safe_txs tr))
  ∧ (∀ (submitted submitted' : list (string * string)) ps',
       NoDup submitted.*1 →
       submitted' ≡ₚ submitted →
       participant_to_signature ps = list_to_map submitted →
       participant_to_signature ps' = list_to_map submitted' →
       participants ps' = participants ps →
       compose_final_signature ps' = compose_final_signature ps).
Proof.
  intros Hhex.
  assert (Hcompose : compose_final_signature ps
            = Ok (finalSignature_spec (signed_participants ps) sig)).
  { unfold compose_final_signature, sorted_addresses.
    rewrite (compose_loop _ sig).
    - simpl. unfold finalSignature_spec, signed_participants.
      by rewrite sorted_filter_elements.
    - intros a h Ha. apply Hhex.
      rewrite merge_sort_Permutation in Ha. by apply elem_of_elements in Ha. }
  split; [exact Hcompose|].
  split; [intros a Ha; by apply elem_of_filter in Ha as [_ ?]|].
  split; [intros a; unfold signed_participants; rewrite elem_of_filter; tauto|].
  split.
  - intros ctx tr o H Hread. unfold_behaviours H. exec_inv H; read_trace.
    all: injection Hread as ->.
    all: repeat constructor.
    all: simpl; congruence.
  - intros submitted submitted' ps' Hnd Hperm E E' Hparts.
    unfold compose_final_signature, sorted_addresses.
    rewrite Hparts, E, E'. f_equal.
    by rewrite (list_to_map_proper submitted' submitted)
      by (by rewrite ?Hperm).
Qed.


(** *** Further properties of the runs *)

Lemma exec_raising_returned {R : Type} (p : prog float R) (r : R) :
  ∀ tr, exec_raising p tr (Returned r) ↔ exec p tr (Returned r).
Proof.
  induction p as [r'|e|X a k IH]; intros tr; simpl; [done..|]. split.
  - intros [(x & tr' & -> & H)|(_ & _ & e & [=])].
    exists x, tr'. split; [done|]. by apply IH.
  - intros (x & tr' & -> & H). left. exists x, tr'. split; [done|]. by apply IH.
Qed.

(** Taking apart a run in which a collaborator may fail. *)
Ltac exec_inv_raising H :=
  repeat first
    [ progress cbn [exec_raising prog_bind mbind prog_mbind mret prog_mret trigger
                    lift logger_info may_raise] in H
    | match type of H with
      | _ ∨ _ =>
          let Hm := fresh "Hm" in
          destruct H as [H | (Hm & -> & ? & ->)]; [|try discriminate Hm]
      | ∃ _, _ => let x := fresh "x" in let tr := fresh "tr" in
                  destruct H as (x & tr & -> & H)
      | _ ∧ _ => destruct H as [-> ->]
      | context [decide ?P] => destruct (decide P)
      | context [unhexlify ?s] => destruct (unhexlify s) eqn:?
      | context [compose_final_signature ?s] =>
          destruct (compose_final_signature s) eqn:?
      | context [dict_get_int ?d ?k] => destruct (dict_get_int d k) eqn:?
      | context [lift ?r] => destruct r eqn:?
      | context [let '(_, _) := ?p in _] => destruct p
      end ].

(** Whichever call of a collaborator fails, if any: a run that completes
    has called [set_done] exactly once, and a run that fails has not called
    it. *)
Theorem completed_phase_signals_done_once (cls : behaviour_cls) ctx tr
    (o : outcome ()) :
  exec_raising (async_act float toChecksumAddress _get_safe_tx cls ctx) tr o →
  (o = Returned () ∧ done_signals tr = 1%nat)
  ∨ (∃ e, o = Raised e ∧ done_signals tr = 0%nat).
Proof.
  intros H. destruct cls; unfold_behaviours H; exec_inv_raising H; read_more; unit_eq.
  all: first [ left; split; reflexivity
             | right; eexists; split; reflexivity ].
Qed.

(** A phase submits at most one payload, none in the initial delay and in
    the end phase and exactly one when the Registration, Observe, Estimate or
    Signature phase completes; the round that stops the resubmission of the
    payload is the round whose end the phase then waits for. *)
Theorem one_payload_per_phase (cls : behaviour_cls) ctx tr (o : outcome ()) :
  exec (async_act float toChecksumAddress _get_safe_tx cls ctx) tr o →
  (length (submitted_payloads tr) ≤ 1)%nat
  ∧ (cls ∈ [InitialDelayState; EndBehaviour] → submitted_payloads tr = [])
  ∧ (cls ∈ [RegistrationBehaviour; ObserveBehaviour; EstimateBehaviour;
            SignatureBehaviour] →
     o = Returned () → length (submitted_payloads tr) = 1%nat)
  ∧ (o = Returned () → Forall (λ round, waited_rounds tr = [round]) (stop_conditions tr)).
Proof.
  intros H. destruct cls; unfold_behaviours H; exec_inv H; read_more.
  all: split; [lia|].
  all: split; [intros Hc; rewrite !elem_of_cons, elem_of_nil in Hc;
               try reflexivity; exfalso; intuition discriminate|].
  all: split; [intros Hc Ho; rewrite !elem_of_cons, elem_of_nil in Hc;
               try reflexivity; try discriminate Ho; exfalso; intuition discriminate|].
  all: intros Ho; try discriminate Ho; repeat constructor.
Qed.

(** When the Observe phase completes, it has asked the price API once, for
    the currency pair of the skill parameters, and has submitted the price it
    was answered. *)
Theorem observation_payload_carries_price ctx tr :
  exec (ObserveBehaviour_async_act float ctx) tr (Returned ()) →
  ∃ price : float,
    price_requests tr
    = [(currency_id (params ctx), convert_id (params ctx), price)]
    ∧ submitted_payloads tr
      = [Observation (mkObservationPayload (agent_address ctx) price)].
Proof.
  intros H. unfold_behaviours H. remember (Returned ()) as o eqn:Ho.
  exec_inv H; read_more; try discriminate Ho.
  eexists. split; reflexivity.
Qed.

(** When the Deploy-Safe phase of the designated sender completes, it has
    asked for one deployment, sent the transaction it was answered with,
    and submitted the contract address it was answered with. *)
Theorem deployer_submits_deployed_address ctx tr ps :
  exec (DeploySafeBehaviour_async_act float ctx) tr (Returned ()) →
  period_state_reads tr !! 0%nat = Some ps →
  agent_address ctx = safe_sender_address ps →
  ∃ (tx_params : gmap string (pyvalue float)) (contract_address : string),
    deploy_answers tr = [(tx_params, contract_address)]
    ∧ raw_transactions tr = [tx_params]
    ∧ submitted_payloads tr = [DeploySafePayload (agent_address ctx) contract_address].
Proof.
  intros H Hread Hsender. unfold_behaviours H. remember (Returned ()) as o eqn:Ho.
  exec_inv H; read_more; try discriminate Ho.
  all: injection Hread as ->.
  all: try done.
  eexists _, _. split_and!; reflexivity.
Qed.

(** When the Finalize phase of the designated sender completes, it has sent
    one transaction and submits the hash the chain client answered with. *)
Theorem finalize_submits_mined_hash ctx tr ps :
  exec (FinalizeBehaviour_async_act float toChecksumAddress _get_safe_tx ctx) tr
       (Returned ()) →
  period_state_reads tr !! 0%nat = Some ps →
  agent_address ctx = safe_sender_address ps →
  ∃ tx_hash : string,
    raw_transaction_hashes tr = [tx_hash]
    ∧ submitted_payloads tr = [FinalizationTxPayload (agent_address ctx) tx_hash]
    ∧ stop_conditions tr = [FinalizationRound].
Proof.
  intros H Hread Hsender. unfold_behaviours H.
  remember (Returned ()) as o eqn:Ho.
  exec_inv H; read_more; try discriminate Ho.
  all: injection Hread as ->; try done.
  all: eexists; split_and!; reflexivity.
Qed.

(** When the transaction hash in the period state is no hexadecimal string,
    the Signature phase fails before it asks the signing oracle: no signing
    request, no payload, no [set_done]. *)
Theorem signature_phase_rejects_bad_hash ctx tr (o : outcome ()) ps :
  exec (SignatureBehaviour_async_act float ctx) tr o →
  period_state_reads tr !! 0%nat = Some ps →
  unhexlify (safe_tx_hash_hex ps) = None →
  o = Raised BinasciiError
  ∧ signing_requests tr = []
  ∧ submitted_payloads tr = []
  ∧ done_signals tr = 0%nat.
Proof.
  intros H Hread Hbad. unfold_behaviours H. exec_inv H; read_more.
  all: injection Hread as ->.
  - congruence.
  - by split_and!.
Qed.


Lemma compose_loop_error (sigs : gmap string string) :
  ∀ (signers : list string) (final_signature : bytes) (e : exn),
    for_each
      (λ final_signature signer,
         match sigs !! signer with
         | None => Ok final_signature
         | Some signature =>
             match unhexlify signature with
             | None => Err BinasciiError
             | Some signature_bytes => Ok (final_signature ++ signature_bytes)
             end
         end)
      signers final_signature = Err e ↔
    e = BinasciiError
    ∧ ∃ a h, a ∈ signers ∧ sigs !! a = Some h ∧ unhexlify h = None.
Proof.
  induction signers as [|a l IH]; intros acc e.
  { simpl. split; [done|]. intros (_ & a & h & Ha & _). by apply elem_of_nil in Ha. }
  cbn [for_each]. destruct (sigs !! a) as [h|] eqn:Ea.
  - destruct (unhexlify h) as [b|] eqn:Eh.
    + rewrite bind_Ok, IH. split; intros (-> & a' & h' & Ha' & Hs & Hu).
      * split; [done|]. exists a', h'. split_and!; [by right|done..].
      * split; [done|]. exists a', h'. split_and!; [|done..].
        apply elem_of_cons in Ha' as [->|]; [congruence|done].
    + rewrite bind_Err. split.
      * intros [= <-]. split; [done|]. exists a, h. split_and!; [left|done..].
      * by intros (-> & _).
  - rewrite bind_Ok, IH. split; intros (-> & a' & h' & Ha' & Hs & Hu).
    + split; [done|]. exists a', h'. split_and!; [by right|done..].
    + split; [done|]. exists a', h'. split_and!; [|done..].
      apply elem_of_cons in Ha' as [->|]; [congruence|done].
Qed.

(** Composing the final signature fails exactly when a participant has a
    signature on record that is no hexadecimal string, and then with the
    error of [binascii]; in that case the Finalize phase stops before it
    calls, builds or sends anything. *)
Theorem final_signature_fails_on_bad_hex ps :
  (∀ e, compose_final_signature ps = Err e ↔
        e = BinasciiError
        ∧ ∃ a h, a ∈ participants ps ∧ participant_to_signature ps !! a = Some h
                 ∧ unhexlify h = None)
  ∧ ∀ ctx tr (o : outcome string) e,
      exec (FinalizeBehaviour__send_safe_transaction float toChecksumAddress
              _get_safe_tx ctx) tr o →
      period_state_reads tr !! 0%nat = Some ps →
      compose_final_signature ps = Err e →
      o = Raised BinasciiError ∧ simulated_calls tr = []
      ∧ build_requests tr = [] ∧ raw_transactions tr = [].
Proof.
  assert (Hiff : ∀ e, compose_final_signature ps = Err e ↔
            e = BinasciiError
            ∧ ∃ a h, a ∈ participants ps ∧ participant_to_signature ps !! a = Some h
                     ∧ unhexlify h = None).
  { intros e. unfold compose_final_signature, sorted_addresses.
    rewrite compose_loop_error.
    split; intros (-> & a & h & Ha & Hrest); (split; [done|]); exists a, h;
      (split; [|exact Hrest]).
    - rewrite merge_sort_Permutation in Ha. by apply elem_of_elements in Ha.
    - rewrite merge_sort_Permutation. by apply elem_of_elements. }
  split; [exact Hiff|].
  intros ctx tr o e H Hread Herr. pose proof (proj1 (Hiff e) Herr) as [-> _].
  unfold_behaviours H. exec_inv H; read_more.
  all: injection Hread as ->; try congruence.
  match goal with
  | E : compose_final_signature _ = Err ?e0 |- _ =>
      apply Hiff in E as [-> _]
  end.
  by split_and!.
Qed.

(** A transaction is sent only after the simulated call of the Safe
    transaction succeeded: when the call raises, the Finalize phase fails
    with that error and neither builds nor sends a transaction; when the
    chain client's transaction has no gas entry, the phase fails with
    [KeyError] and sends nothing. *)
Theorem finalize_sends_only_after_call ctx tr (o : outcome string) :
  exec (FinalizeBehaviour__send_safe_transaction float toChecksumAddress
          _get_safe_tx ctx) tr o →
  (∀ safe_tx address e, (safe_tx, address, Err e) ∈ simulated_calls tr →
     o = Raised e ∧ build_requests tr = [] ∧ raw_transactions tr = [])
  ∧ (raw_transactions tr ≠ [] →
     ∃ safe_tx result, simulated_calls tr = [(safe_tx, agent_address ctx, Ok result)]
       ∧ safe_tx ∈ built_safe_txs tr)
  ∧ (∀ tx_parameters transaction_dict,
       (tx_parameters, transaction_dict) ∈ build_requests tr →
       transaction_dict !! "gas" = None →
       o = Raised (KeyError "gas") ∧ raw_transactions tr = []).
Proof.
  intros H. unfold_behaviours H. exec_inv H; read_more.
  all: split; [intros safe_tx address err Hc;
               first [by apply elem_of_nil in Hc
                     | apply list_elem_of_singleton in Hc; simplify_eq;
                       by split_and!]|].
  all: split; [intros Hne;
               first [done
                     | eexists _, _; split; [reflexivity|apply list_elem_of_here]]|].
  all: intros tx_parameters transaction_dict Hb Hgas.
  all: first [by apply elem_of_nil in Hb
             | apply list_elem_of_singleton in Hb; simplify_eq;
               match goal with
               | E : dict_get_int ?d "gas" = _ |- _ =>
                   unfold dict_get_int in E; rewrite Hgas in E; simplify_eq
               end; by split_and!].
Qed.

(** The gas price of the transaction to build is the gas price of the Safe
    transaction when that is not zero, and the chain is not asked then;
    otherwise it is the gas price the chain client answers.  The parameters
    passed are the sender and this gas price, and nothing else. *)
Theorem finalize_gas_price_choice ctx tr (o : outcome string) safe_tx
    (tx_parameters transaction_dict : gmap string (pyvalue float)) :
  exec (FinalizeBehaviour__send_safe_transaction float toChecksumAddress
          _get_safe_tx ctx) tr o →
  safe_tx ∈ built_safe_txs tr →
  (tx_parameters, transaction_dict) ∈ build_requests tr →
  (gas_price safe_tx ≠ 0 →
     gas_price_requests tr = []
     ∧ tx_parameters !! "gasPrice" = Some (PyInt (gas_price safe_tx)))
  ∧ (gas_price safe_tx = 0 →
     ∃ price, gas_price_requests tr = [price]
       ∧ tx_parameters !! "gasPrice" = Some (PyInt price))
  ∧ tx_parameters !! "from" = Some (PyStr (agent_address ctx))
  ∧ dom tx_parameters = {["from"; "gasPrice"]}.
Proof.
  intros H Hs Hb. unfold_behaviours H. exec_inv H; read_more.
  all: try (by apply elem_of_nil in Hs).
  all: apply list_elem_of_singleton in Hs; apply list_elem_of_singleton in Hb.
  all: simplify_eq.
  all: split; [intros Hne; first [done | split; [reflexivity|apply lookup_insert_eq]]|].
  all: split; [intros Hz; first [done
                 | eexists; split; [reflexivity|apply lookup_insert_eq]]|].
  all: split; [by rewrite lookup_insert_ne, lookup_insert_eq|].
  all: rewrite !dom_insert_L, dom_empty_L; set_solver.
Qed.

Lemma for_each_ext_in {A S : Type} (body1 body2 : S → A → result S) (l : list A) :
  (∀ x s, x ∈ l → body1 s x = body2 s x) →
  ∀ s, for_each body1 l s = for_each body2 l s.
Proof.
  induction l as [|x l IH]; intros Hext s; [done|].
  cbn [for_each]. rewrite (Hext x s) by left.
  destruct (body2 s x) as [s'|e]; [|done].
  rewrite !bind_Ok. apply IH. intros y s'' Hy. apply Hext. by right.
Qed.

Lemma length_concat_const {A B : Type} (f : A → list B) (n : nat) (l : list A) :
  (∀ a, a ∈ l → length (f a) = n) → length (concat (f <$> l)) = (n * length l)%nat.
Proof.
  induction l as [|a l IH]; intros Hn; [simpl; lia|].
  rewrite fmap_cons. cbn [concat]. rewrite length_app, (Hn a) by left.
  rewrite IH; [cbn [length]; lia|].
  intros a' Ha'. apply Hn. by right.
Qed.

(** When every signature on record for a participant decodes to
    [SIGNATURE_LENGTH] bytes, the final signature has [SIGNATURE_LENGTH]
    bytes for every participant with a signature on record, and no more. *)
Theorem final_signature_length ps :
  (∀ a h, a ∈ participants ps → participant_to_signature ps !! a = Some h →
          ∃ b, unhexlify h = Some b ∧ length b = SIGNATURE_LENGTH) →
  ∃ final_signature,
    compose_final_signature ps = Ok final_signature
    ∧ length final_signature
      = (SIGNATURE_LENGTH * size (signed_participants ps))%nat
    ∧ (size (signed_participants ps) ≤ size (participants ps))%nat.
Proof.
  intros Hsig.
  set (sig := λ a, default [] (participant_to_signature ps !! a ≫= unhexlify)).
  eexists. split; [|split].
  - unfold compose_final_signature, sorted_addresses.
    rewrite (compose_loop _ sig); [reflexivity|].
    intros a h Ha Hh. rewrite merge_sort_Permutation in Ha.
    apply elem_of_elements in Ha. destruct (Hsig a h Ha Hh) as (b & Hb & _).
    unfold sig. rewrite Hh. simpl. by rewrite Hb.
  - rewrite app_nil_l, sorted_filter_elements.
    rewrite (length_concat_const sig SIGNATURE_LENGTH).
    + by rewrite merge_sort_Permutation.
    + intros a Ha. rewrite merge_sort_Permutation in Ha.
      apply elem_of_elements, elem_of_filter in Ha as [[h Hh] Ha].
      destruct (Hsig a h Ha Hh) as (b & Hb & Hlen).
      unfold sig. rewrite Hh. simpl. by rewrite Hb.
  - apply subseteq_size. intros a Ha. by apply elem_of_filter in Ha as [_ ?].
Qed.

(** A signature on record for an address that is no participant does not
    enter the final signature. *)
Theorem final_signature_ignores_non_participants ps (a signature : string) :
  a ∉ participants ps →
  compose_final_signature (record_signature ps a signature)
  = compose_final_signature ps.
Proof.
  intros Ha. unfold compose_final_signature, sorted_addresses. simpl.
  apply for_each_ext_in. intros x acc Hx.
  rewrite merge_sort_Permutation in Hx. apply elem_of_elements in Hx.
  rewrite lookup_insert_ne; [done|]. intros ->. done.
Qed.

(** Only the Deploy-Safe and the Finalize phase write to the chain: a run of
    any other phase, the TxHash phase of the designated sender included,
    asks for no deployment and sends no transaction. *)
Theorem chain_writes_only_in_deploy_and_finalize (cls : behaviour_cls) ctx tr
    (o : outcome ()) :
  exec (async_act float toChecksumAddress _get_safe_tx cls ctx) tr o →
  chain_writes tr ≠ 0%nat →
  (cls = DeploySafeBehaviour
   ∧ length (deploy_requests tr) = 1%nat ∧ (length (raw_transactions tr) ≤ 1)%nat)
  ∨ (cls = FinalizeBehaviour
     ∧ deploy_requests tr = [] ∧ length (raw_transactions tr) = 1%nat).
Proof.
  intros H Hw. destruct cls; unfold_behaviours H; exec_inv H; read_more.
  all: try done.
  all: first [ left; split_and!; [reflexivity|reflexivity|lia]
             | right; split_and!; reflexivity ].
Qed.
End BehaviourFacts.

(** ** Registering on a machine in use *)

(** [_register_states] on a machine that already has a state under the id of
    one of the classes raises [ValueError]; so a second [setup] of the same
    behaviour fails. *)
Theorem register_states_on_used_machine {StateCls : Type}
    (state_id : StateCls → string) (DONE_EVENT : string)
    (self : FSMBehaviour StateCls) (state_classes : list StateCls) (c : StateCls) :
  c ∈ state_classes →
  is_Some (name_to_state self !! state_id c) →
  _register_states state_id DONE_EVENT self state_classes
  = Err (ValueError "State name already existing.").
Proof.
  intros Hc Hsome. destruct state_classes as [|first rest].
  { by apply elem_of_nil in Hc. }
  unfold _register_states. cbn [length Nat.eqb negb enforce].
  rewrite bind_Ok, (list_get_lookup _ 0%nat first), bind_Ok by done.
  change (_register_state state_id self first true)
    with (register_state self (state_id first) first true).
  destruct (name_to_state self !! state_id first) as [c0|] eqn:Ef.
  { rewrite register_state_taken by (by eexists). done. }
  destruct (register_state_fresh self (state_id first) first true Ef)
    as (s1 & E1 & Hn1 & _).
  rewrite E1, bind_Ok. change (drop 1 (first :: rest)) with rest.
  rewrite (register_each_state_clash state_id); [done|]. left.
  apply elem_of_cons in Hc as [->|Hc].
  { rewrite Ef in Hsome. by destruct Hsome. }
  exists c. split; [done|]. rewrite Hn1.
  destruct (decide (state_id first = state_id c)) as [E|Hne].
  - rewrite E, lookup_insert_eq. by eexists.
  - by rewrite lookup_insert_ne.
Qed.

Theorem setup_twice_fails (DONE_EVENT : string) (fsm : FSMBehaviour behaviour_cls) :
  setup DONE_EVENT = Ok fsm →
  _register_states state_id DONE_EVENT fsm setup_state_classes
  = Err (ValueError "State name already existing.").
Proof.
  intros Hsetup.
  destruct (register_states_chain state_id DONE_EVENT setup_state_classes
              InitialDelayState (tail setup_state_classes) eq_refl)
    as (fsm' & E & _ & _ & Hn & _); [compute_done|].
  unfold setup in Hsetup. rewrite E in Hsetup. injection Hsetup as <-.
  apply (register_states_on_used_machine state_id DONE_EVENT fsm'
           setup_state_classes InitialDelayState); [left|].
  rewrite Hn. by eexists.
Qed.


(** ** The theorems at the test data *)

Lemma payloads_carry_own_address_witness :
  exec (async_act Z id example_get_safe_tx FinalizeBehaviour (example_context "0xA"))
       (example_finalize_run "0xA").1 (example_finalize_run "0xA").2
  ∧ Forall (λ p, payload_sender p = "0xA")
           (submitted_payloads (example_finalize_run "0xA").1).
Proof.
  assert (H : exec (async_act Z id example_get_safe_tx FinalizeBehaviour
                      (example_context "0xA"))
                   (example_finalize_run "0xA").1 (example_finalize_run "0xA").2)
    by apply run_exec.
  split; [exact H|].
  exact (payloads_carry_own_address id example_get_safe_tx FinalizeBehaviour
           (example_context "0xA") _ _ H).
Defined.

Lemma only_designated_sender_writes_witness :
  FinalizeBehaviour ∈ [DeploySafeBehaviour; TransactionHashBehaviour; FinalizeBehaviour]
  ∧ exec (async_act Z id example_get_safe_tx FinalizeBehaviour (example_context "0xB"))
         (example_finalize_run "0xB").1 (example_finalize_run "0xB").2
  ∧ ∃ ps, period_state_reads (example_finalize_run "0xB").1 !! 0%nat = Some ps
      ∧ ("0xB" ≠ safe_sender_address ps →
           chain_writes (example_finalize_run "0xB").1 = 0%nat
           ∧ submitted_payloads (example_finalize_run "0xB").1 = []
           ∧ logged (example_finalize_run "0xB").1 !! 0%nat
             = Some "I am not the designated sender, waiting until next round..."
           ∧ (example_finalize_run "0xB").2 = Returned ())
      ∧ (chain_writes (example_finalize_run "0xB").1 ≠ 0%nat
         ∨ submitted_payloads (example_finalize_run "0xB").1 ≠ [] →
           "0xB" = safe_sender_address ps).
Proof.
  assert (Hcls : FinalizeBehaviour
                 ∈ [DeploySafeBehaviour; TransactionHashBehaviour; FinalizeBehaviour])
    by (do 2 apply list_elem_of_further; apply list_elem_of_here).
  assert (H : exec (async_act Z id example_get_safe_tx FinalizeBehaviour
                      (example_context "0xB"))
                   (example_finalize_run "0xB").1 (example_finalize_run "0xB").2)
    by apply run_exec.
  split; [exact Hcls|]. split; [exact H|].
  exact (only_designated_sender_writes id example_get_safe_tx FinalizeBehaviour
           (example_context "0xB") _ _ Hcls H).
Defined.

Lemma signature_phase_signs_agreed_hash_witness :
  exec (SignatureBehaviour_async_act Z (example_context "0xB"))
       (example_signature_run "0xabcd").1 (example_signature_run "0xabcd").2
  ∧ period_state_reads (example_signature_run "0xabcd").1 !! 0%nat
    = Some example_period_state
  ∧ unhexlify (safe_tx_hash_hex example_period_state) = Some [xc0; xff; xee]
  ∧ ∃ response : SigningMessage,
      Obs WaitForMessage response ∈ (example_signature_run "0xabcd").1
      ∧ signing_requests (example_signature_run "0xabcd").1 = [([xc0; xff; xee], true)]
      ∧ submitted_payloads (example_signature_run "0xabcd").1
        = [SignaturePayload "0xB" (str_drop 2 (body (signed_message response)))]
      ∧ ∀ signature_hex : string,
          body (signed_message response) = String "0" (String "x" signature_hex) →
          submitted_payloads (example_signature_run "0xabcd").1
          = [SignaturePayload "0xB" signature_hex].
Proof.
  assert (H : exec (SignatureBehaviour_async_act Z (example_context "0xB"))
                   (example_signature_run "0xabcd").1
                   (example_signature_run "0xabcd").2) by apply run_exec.
  assert (Hread : period_state_reads (example_signature_run "0xabcd").1 !! 0%nat
                  = Some example_period_state) by reflexivity.
  assert (Hhash : unhexlify (safe_tx_hash_hex example_period_state)
                  = Some [xc0; xff; xee]) by reflexivity.
  split; [exact H|]. split; [exact Hread|]. split; [exact Hhash|].
  exact (signature_phase_signs_agreed_hash (example_context "0xB") _ _
           example_period_state [xc0; xff; xee] H Hread Hhash).
Defined.

Lemma signature_phase_submits_any_response_witness :
  exec (SignatureBehaviour_async_act Z (example_context "0xB"))
       (example_signature_run "deadbeef").1 (Returned ())
  ∧ ∃ response : SigningMessage,
      Obs WaitForMessage response ∈ (example_signature_run "deadbeef").1
      ∧ submitted_payloads (example_signature_run "deadbeef").1
        = [SignaturePayload "0xB" (str_drop 2 (body (signed_message response)))]
      ∧ (signature_response_ok (body (signed_message response)) = true →
         ∃ signature_bytes : bytes,
           unhexlify (str_drop 2 (body (signed_message response)))
           = Some signature_bytes
           ∧ length signature_bytes = SIGNATURE_LENGTH).
Proof.
  assert (H : exec (SignatureBehaviour_async_act Z (example_context "0xB"))
                   (example_signature_run "deadbeef").1 (Returned ()))
    by exact (run_exec (respond (example_surroundings 100000 "deadbeef"))
                (SignatureBehaviour_async_act Z (example_context "0xB")) ()).
  split; [exact H|].
  exact (proj1 (signature_phase_submits_any_response (example_context "0xB")) _ H).
Defined.

(** C4, against the claim as it stands: the oracle answers [deadbeef], which
    has neither the prefix nor the length of a signature; the phase does not
    fail, and submits [adbeef] as the agent's signature. *)
Lemma signature_phase_submits_malformed_response :
  signature_response_ok "deadbeef" = false
  ∧ exec (SignatureBehaviour_async_act Z (example_context "0xB"))
         (example_signature_run "deadbeef").1 (Returned ())
  ∧ submitted_payloads (example_signature_run "deadbeef").1
    = [SignaturePayload "0xB" "adbeef"].
Proof.
  split; [reflexivity|]. split; [|reflexivity].
  exact (run_exec (respond (example_surroundings 100000 "deadbeef"))
           (SignatureBehaviour_async_act Z (example_context "0xB")) ()).
Qed.



Lemma finalize_gas_and_nonce_witness :
  exec (FinalizeBehaviour__send_safe_transaction Z id example_get_safe_tx
          (example_context "0xA"))
       (example_send_run 100000).1 (example_send_run 100000).2
  ∧ example_final_transaction ∈ raw_transactions (example_send_run 100000).1
  ∧ ∃ (safe_tx : SafeTx) (tx_parameters transaction_dict : gmap string (pyvalue Z))
      (g n : Z),
      Obs (BuildTransaction safe_tx tx_parameters) transaction_dict
        ∈ (example_send_run 100000).1
      ∧ tx_parameters !! "from" = Some (PyStr "0xA")
      ∧ transaction_dict !! "gas" = Some (PyInt g)
      ∧ Obs (EthGetTransactionCount "0xA") n ∈ (example_send_run 100000).1
      ∧ example_final_transaction !! "gas"
        = Some (PyInt (Z.max (g + 75000) (recommended_gas safe_tx)))
      ∧ example_final_transaction !! "nonce" = Some (PyInt n)
      ∧ (∀ key, key ≠ "gas" → key ≠ "nonce" →
                example_final_transaction !! key = transaction_dict !! key)
      ∧ raw_transactions (example_send_run 100000).1 = [example_final_transaction].
Proof.
  assert (H : exec (FinalizeBehaviour__send_safe_transaction Z id example_get_safe_tx
                      (example_context "0xA"))
                   (example_send_run 100000).1 (example_send_run 100000).2)
    by apply run_exec.
  assert (Htx : example_final_transaction
                ∈ raw_transactions (example_send_run 100000).1)
    by (vm_compute; apply list_elem_of_here).
  split; [exact H|]. split; [exact Htx|].
  exact (finalize_gas_and_nonce id example_get_safe_tx (example_context "0xA")
           _ _ example_final_transaction H Htx).
Defined.

(** The two test points of the gas rule: an estimate of [100000] and of
    [200000], with a recommended gas of [150000]. *)
Example finalize_gas_at_test_points :
  (λ tx : gmap string (pyvalue Z), tx !! "gas")
    <$> raw_transactions (example_send_run 100000).1 = [Some (PyInt 175000)]
  ∧ (λ tx : gmap string (pyvalue Z), tx !! "gas")
    <$> raw_transactions (example_send_run 200000).1 = [Some (PyInt 275000)]
  ∧ (λ tx : gmap string (pyvalue Z), tx !! "nonce")
    <$> raw_transactions (example_send_run 100000).1 = [Some (PyInt 7)].
Proof. split_and!; vm_compute; reflexivity. Qed.

Lemma final_signature_in_address_order_witness :
  (∀ a h, a ∈ participants example_period_state →
          participant_to_signature example_period_state !! a = Some h →
          unhexlify h = Some (example_sig a))
  ∧ compose_final_signature example_period_state
    = Ok (finalSignature_spec (signed_participants example_period_state) example_sig)
  ∧ finalSignature_spec (signed_participants example_period_state) example_sig
    = [xaa; x0a; xcc; x0c].
Proof.
  assert (Hhex : ∀ a h, a ∈ participants example_period_state →
                        participant_to_signature example_period_state !! a = Some h →
                        unhexlify h = Some (example_sig a)).
  { intros a h Ha Hh. unfold example_sig.
    change (participant_to_signature example_period_state)
      with example_participant_to_signature in Hh.
    rewrite Hh. simpl.
    apply elem_of_list_to_set in Ha.
    repeat (apply elem_of_cons in Ha as [->|Ha]);
      [vm_compute in Hh; try discriminate Hh; injection Hh as <-; reflexivity..|].
    by apply elem_of_nil in Ha. }
  split; [exact Hhex|]. split; [|vm_compute; reflexivity].
  exact (proj1 (final_signature_in_address_order id example_get_safe_tx
                  example_period_state example_sig Hhex)).
Defined.


Lemma register_states_of_distinct_ids_witness :
  setup_state_classes ≠ []
  ∧ NoDup (state_id <$> setup_state_classes)
  ∧ (∀ c, c ∈ setup_state_classes →
          name_to_state (mkFSM {["idle" := EndBehaviour]} None None
                               {["idle" := {[Some "done" := "idle"]}]})
          !! state_id c = None)
  ∧ (∀ src dst, consecutive (state_id <$> setup_state_classes) src dst →
       next_state (mkFSM {["idle" := EndBehaviour]} None None
                         {["idle" := {[Some "done" := "idle"]}]})
                  src (Some "done") = None)
  ∧ ∃ fsm,
      _register_states state_id "done"
        (mkFSM {["idle" := EndBehaviour]} None None
               {["idle" := {[Some "done" := "idle"]}]})
        setup_state_classes = Ok fsm
      ∧ initial_state fsm = Some "initial_delay"
      ∧ next_state fsm "finalize" (Some "done") = Some "end"
      ∧ next_state fsm "idle" (Some "done") = Some "idle".
Proof.
  assert (Hne : setup_state_classes ≠ []) by discriminate.
  assert (Hnd : NoDup (state_id <$> setup_state_classes)) by compute_done.
  assert (Hfresh : ∀ c, c ∈ setup_state_classes →
            name_to_state (mkFSM {["idle" := EndBehaviour]} None None
                                 {["idle" := {[Some "done" := "idle"]}]})
            !! state_id c = None).
  { intros c Hc. by destruct c. }
  assert (Hfree : ∀ src dst, consecutive (state_id <$> setup_state_classes) src dst →
            next_state (mkFSM {["idle" := EndBehaviour]} None None
                              {["idle" := {[Some "done" := "idle"]}]})
                       src (Some "done") = None).
  { intros src dst (i & Hi & _). apply list_elem_of_lookup_2 in Hi.
    repeat (apply elem_of_cons in Hi as [->|Hi]; [reflexivity|]).
    by apply elem_of_nil in Hi. }
  split; [exact Hne|]. split; [exact Hnd|]. split; [exact Hfresh|].
  split; [exact Hfree|].
  destruct (proj1 (proj2 (register_states_of_distinct_ids state_id "done"
                            (mkFSM {["idle" := EndBehaviour]} None None
                                   {["idle" := {[Some "done" := "idle"]}]})
                            setup_state_classes)) Hne Hnd Hfresh Hfree)
    as (fsm & E & Hi & _ & _ & _ & Hnext).
  exists fsm. split; [exact E|]. split; [exact Hi|]. split.
  - apply Hnext. right. split; [reflexivity|]. exists 7%nat. split; reflexivity.
  - apply Hnext. left. reflexivity.
Defined.

(** C7, against the claim as it stands: a non-empty list in which a state id
    occurs twice is refused; no state and no transition is registered. *)
Lemma register_states_refuses_repeated_id :
  [InitialDelayState; RegistrationBehaviour; InitialDelayState; EndBehaviour] ≠ []
  ∧ _register_states state_id "done" FSMBehaviour_init
      [InitialDelayState; RegistrationBehaviour; InitialDelayState; EndBehaviour]
    = Err (ValueError "State name already existing.").
Proof. split; [discriminate|vm_compute; reflexivity]. Qed.

Lemma completed_phase_signals_done_once_witness :
  exec_raising (async_act Z id example_get_safe_tx ObserveBehaviour
                  (example_context "0xB"))
               [Obs (LogStart "observe") ()] (Raised (ValueError "no price"))
  ∧ (Raised (ValueError "no price") = Returned ()
     ∧ done_signals [Obs (float:=Z) (LogStart "observe") ()] = 1%nat
     ∨ ∃ e, Raised (ValueError "no price") = Raised (R:=()) e
         ∧ done_signals [Obs (float:=Z) (LogStart "observe") ()] = 0%nat).
Proof.
  assert (H : exec_raising (async_act Z id example_get_safe_tx ObserveBehaviour
                              (example_context "0xB"))
                           [Obs (LogStart "observe") ()]
                           (Raised (ValueError "no price"))).
  { left. eexists _, _. split; [reflexivity|]. right.
    split; [reflexivity|]. split; [reflexivity|]. by eexists. }
  split; [exact H|].
  exact (completed_phase_signals_done_once id example_get_safe_tx ObserveBehaviour
           (example_context "0xB") _ _ H).
Defined.

Lemma one_payload_per_phase_witness :
  exec (async_act Z id example_get_safe_tx SignatureBehaviour (example_context "0xB"))
       (example_signature_run "0xabcd").1 (example_signature_run "0xabcd").2
  ∧ (length (submitted_payloads (example_signature_run "0xabcd").1) ≤ 1)%nat.
Proof.
  assert (H : exec (async_act Z id example_get_safe_tx SignatureBehaviour
                      (example_context "0xB"))
                   (example_signature_run "0xabcd").1
                   (example_signature_run "0xabcd").2) by apply run_exec.
  split; [exact H|].
  exact (proj1 (one_payload_per_phase id example_get_safe_tx SignatureBehaviour
                  (example_context "0xB") _ _ H)).
Defined.

Lemma observation_payload_carries_price_witness :
  exec (ObserveBehaviour_async_act Z (example_context "0xB"))
       (run (respond (example_surroundings 100000 "0xabcd"))
            (ObserveBehaviour_async_act Z (example_context "0xB")) ()).1
       (Returned ())
  ∧ ∃ price : Z,
      price_requests
        (run (respond (example_surroundings 100000 "0xabcd"))
             (ObserveBehaviour_async_act Z (example_context "0xB")) ()).1
      = [("bitcoin"%string, "usd"%string, price)]
      ∧ submitted_payloads
          (run (respond (example_surroundings 100000 "0xabcd"))
               (ObserveBehaviour_async_act Z (example_context "0xB")) ()).1
        = [Observation (mkObservationPayload "0xB" price)].
Proof.
  assert (H : exec (ObserveBehaviour_async_act Z (example_context "0xB"))
                (run (respond (example_surroundings 100000 "0xabcd"))
                     (ObserveBehaviour_async_act Z (example_context "0xB")) ()).1
                (Returned ()))
    by exact (run_exec (respond (example_surroundings 100000 "0xabcd"))
                (ObserveBehaviour_async_act Z (example_context "0xB")) ()).
  split; [exact H|].
  exact (observation_payload_carries_price (example_context "0xB") _ H).
Defined.

Lemma deployer_submits_deployed_address_witness :
  exec (DeploySafeBehaviour_async_act Z (example_context "0xA"))
       example_deploy_phase_run.1 (Returned ())
  ∧ period_state_reads example_deploy_phase_run.1 !! 0%nat = Some example_period_state
  ∧ agent_address (example_context "0xA") = safe_sender_address example_period_state
  ∧ ∃ (tx_params : gmap string (pyvalue Z)) (contract_address : string),
      deploy_answers example_deploy_phase_run.1 = [(tx_params, contract_address)]
      ∧ raw_transactions example_deploy_phase_run.1 = [tx_params]
      ∧ submitted_payloads example_deploy_phase_run.1
        = [DeploySafePayload "0xA" contract_address].
Proof.
  assert (H : exec (DeploySafeBehaviour_async_act Z (example_context "0xA"))
                   example_deploy_phase_run.1 (Returned ()))
    by exact (run_exec (respond (example_surroundings 100000 "0xabcd"))
                (DeploySafeBehaviour_async_act Z (example_context "0xA")) ()).
  split; [exact H|]. split; [reflexivity|]. split; [reflexivity|].
  exact (deployer_submits_deployed_address (example_context "0xA") _
           example_period_state H eq_refl eq_refl).
Defined.

Lemma finalize_submits_mined_hash_witness :
  exec (FinalizeBehaviour_async_act Z id example_get_safe_tx (example_context "0xA"))
       (example_finalize_run "0xA").1 (Returned ())
  ∧ period_state_reads (example_finalize_run "0xA").1 !! 0%nat
    = Some example_period_state
  ∧ agent_address (example_context "0xA") = safe_sender_address example_period_state
  ∧ ∃ tx_hash : string,
      raw_transaction_hashes (example_finalize_run "0xA").1 = [tx_hash]
      ∧ submitted_payloads (example_finalize_run "0xA").1
        = [FinalizationTxPayload "0xA" tx_hash]
      ∧ stop_conditions (example_finalize_run "0xA").1 = [FinalizationRound].
Proof.
  assert (H : exec (FinalizeBehaviour_async_act Z id example_get_safe_tx
                      (example_context "0xA"))
                   (example_finalize_run "0xA").1 (Returned ()))
    by exact (run_exec (respond (example_surroundings 100000 "0xabcd"))
                (FinalizeBehaviour_async_act Z id example_get_safe_tx
                   (example_context "0xA")) ()).
  split; [exact H|]. split; [reflexivity|]. split; [reflexivity|].
  exact (finalize_submits_mined_hash id example_get_safe_tx (example_context "0xA")
           _ example_period_state H eq_refl eq_refl).
Defined.

Lemma signature_phase_rejects_bad_hash_witness :
  exec (SignatureBehaviour_async_act Z (example_context "0xB"))
       (run (respond (example_surroundings_in
                        (example_state_with "xyz" example_participant_to_signature)
                        (Ok 1)))
            (SignatureBehaviour_async_act Z (example_context "0xB")) ()).1
       (Raised BinasciiError)
  ∧ unhexlify "xyz" = None
  ∧ signing_requests
      (run (respond (example_surroundings_in
                       (example_state_with "xyz" example_participant_to_signature)
                       (Ok 1)))
           (SignatureBehaviour_async_act Z (example_context "0xB")) ()).1 = [].
Proof.
  assert (H : exec (SignatureBehaviour_async_act Z (example_context "0xB"))
                (run (respond (example_surroundings_in
                        (example_state_with "xyz" example_participant_to_signature)
                        (Ok 1)))
                     (SignatureBehaviour_async_act Z (example_context "0xB")) ()).1
                (Raised BinasciiError))
    by exact (run_exec (respond (example_surroundings_in
                          (example_state_with "xyz" example_participant_to_signature)
                          (Ok 1)))
                (SignatureBehaviour_async_act Z (example_context "0xB")) ()).
  split; [exact H|]. split; [reflexivity|].
  exact (proj1 (proj2 (signature_phase_rejects_bad_hash (example_context "0xB") _ _
                         (example_state_with "xyz" example_participant_to_signature)
                         H eq_refl eq_refl))).
Defined.


Lemma final_signature_fails_on_bad_hex_witness :
  (∃ a h, a ∈ participants (example_state_with "c0ffee" {["0xC" := "zz"]})
          ∧ participant_to_signature (example_state_with "c0ffee" {["0xC" := "zz"]})
            !! a = Some h
          ∧ unhexlify h = None)
  ∧ compose_final_signature (example_state_with "c0ffee" {["0xC" := "zz"]})
    = Err BinasciiError.
Proof.
  assert (Hbad : ∃ a h,
            a ∈ participants (example_state_with "c0ffee" {["0xC" := "zz"]})
            ∧ participant_to_signature (example_state_with "c0ffee" {["0xC" := "zz"]})
              !! a = Some h
            ∧ unhexlify h = None).
  { exists "0xC", "zz". split; [|split; reflexivity].
    apply elem_of_list_to_set.
    do 3 apply list_elem_of_further. apply list_elem_of_here. }
  split; [exact Hbad|].
  exact (proj2 (proj1 (final_signature_fails_on_bad_hex id example_get_safe_tx
                         (example_state_with "c0ffee" {["0xC" := "zz"]}))
                      BinasciiError)
               (conj eq_refl Hbad)).
Defined.

Lemma finalize_sends_only_after_call_witness :
  exec (FinalizeBehaviour__send_safe_transaction Z id example_get_safe_tx
          (example_context "0xA"))
       (run (respond (example_surroundings_in example_period_state (Err TypeError)))
            (FinalizeBehaviour__send_safe_transaction Z id example_get_safe_tx
               (example_context "0xA")) ()).1
       (Raised TypeError)
  ∧ raw_transactions
      (run (respond (example_surroundings_in example_period_state (Err TypeError)))
           (FinalizeBehaviour__send_safe_transaction Z id example_get_safe_tx
              (example_context "0xA")) ()).1 = [].
Proof.
  assert (H : exec (FinalizeBehaviour__send_safe_transaction Z id example_get_safe_tx
                      (example_context "0xA"))
                (run (respond (example_surroundings_in example_period_state
                                 (Err TypeError)))
                     (FinalizeBehaviour__send_safe_transaction Z id example_get_safe_tx
                        (example_context "0xA")) ()).1
                (Raised TypeError))
    by exact (run_exec (respond (example_surroundings_in example_period_state
                                   (Err TypeError)))
                (FinalizeBehaviour__send_safe_transaction Z id example_get_safe_tx
                   (example_context "0xA")) ()).
  split; [exact H|].
  refine (proj2 (proj2 (proj1 (finalize_sends_only_after_call id example_get_safe_tx
                                 (example_context "0xA") _ _ H)
                              (set_signatures
                                 (example_get_safe_tx "0x5afe" "0xA" [x01; x02])
                                 [xaa; x0a; xcc; x0c])
                              "0xA" TypeError _))).
  vm_compute. apply list_elem_of_here.
Defined.

Lemma finalize_gas_price_choice_witness :
  exec (FinalizeBehaviour__send_safe_transaction Z id example_get_safe_tx
          (example_context "0xA"))
       (example_send_run 100000).1 (example_send_run 100000).2
  ∧ set_signatures (example_get_safe_tx "0x5afe" "0xA" [x01; x02])
                   [xaa; x0a; xcc; x0c]
    ∈ built_safe_txs (example_send_run 100000).1
  ∧ (<["gasPrice" := PyInt 20]> (<["from" := PyStr "0xA"]> ∅),
     <["gas" := PyInt 100000]>
       (<["gasPrice" := PyInt 20]> (<["from" := PyStr "0xA"]> ∅)))
    ∈ build_requests (example_send_run 100000).1
  ∧ gas_price (set_signatures (example_get_safe_tx "0x5afe" "0xA" [x01; x02])
                              [xaa; x0a; xcc; x0c]) = 0
  ∧ ∃ price, gas_price_requests (example_send_run 100000).1 = [price]
      ∧ (<["gasPrice" := PyInt 20]> (<["from" := PyStr "0xA"]> ∅)
           : gmap string (pyvalue Z)) !! "gasPrice" = Some (PyInt price).
Proof.
  assert (H : exec (FinalizeBehaviour__send_safe_transaction Z id example_get_safe_tx
                      (example_context "0xA"))
                   (example_send_run 100000).1 (example_send_run 100000).2)
    by apply run_exec.
  assert (Hs : set_signatures (example_get_safe_tx "0x5afe" "0xA" [x01; x02])
                              [xaa; x0a; xcc; x0c]
               ∈ built_safe_txs (example_send_run 100000).1)
    by (vm_compute; apply list_elem_of_here).
  assert (Hb : (<["gasPrice" := PyInt 20]> (<["from" := PyStr "0xA"]> ∅),
                <["gas" := PyInt 100000]>
                  (<["gasPrice" := PyInt 20]> (<["from" := PyStr "0xA"]> ∅)))
               ∈ build_requests (example_send_run 100000).1)
    by (vm_compute; apply list_elem_of_here).
  split; [exact H|]. split; [exact Hs|]. split; [exact Hb|]. split; [reflexivity|].
  exact (proj1 (proj2 (finalize_gas_price_choice id example_get_safe_tx
                         (example_context "0xA") _ _ _ _ _ H Hs Hb)) eq_refl).
Defined.

Lemma final_signature_length_witness :
  (∀ a h, a ∈ participants example_signed_state →
          participant_to_signature example_signed_state !! a = Some h →
          ∃ b, unhexlify h = Some b ∧ length b = SIGNATURE_LENGTH)
  ∧ ∃ final_signature,
      compose_final_signature example_signed_state = Ok final_signature
      ∧ length final_signature
        = (SIGNATURE_LENGTH * size (signed_participants example_signed_state))%nat
      ∧ (size (signed_participants example_signed_state)
         ≤ size (participants example_signed_state))%nat.
Proof.
  assert (Hsig : ∀ a h, a ∈ participants example_signed_state →
                   participant_to_signature example_signed_state !! a = Some h →
                   ∃ b, unhexlify h = Some b ∧ length b = SIGNATURE_LENGTH).
  { intros a h Ha Hh. apply elem_of_list_to_set in Ha.
    repeat (apply elem_of_cons in Ha as [->|Ha]);
      [vm_compute in Hh; try discriminate Hh; injection Hh as <-;
       eexists; split; vm_compute; reflexivity..|].
    by apply elem_of_nil in Ha. }
  split; [exact Hsig|].
  exact (final_signature_length example_signed_state Hsig).
Defined.

Lemma final_signature_ignores_non_participants_witness :
  ("0xE" ∉ participants example_period_state)
  ∧ compose_final_signature (record_signature example_period_state "0xE" "ee0e")
    = compose_final_signature example_period_state.
Proof.
  assert (Ha : "0xE" ∉ participants example_period_state).
  { intros Ha. apply elem_of_list_to_set in Ha.
    repeat (apply elem_of_cons in Ha as [Ha|Ha]; [discriminate Ha|]).
    by apply elem_of_nil in Ha. }
  split; [exact Ha|].
  exact (final_signature_ignores_non_participants example_period_state
           "0xE" "ee0e" Ha).
Defined.

Lemma register_states_on_used_machine_witness :
  EndBehaviour ∈ setup_state_classes
  ∧ is_Some (name_to_state (mkFSM {["end" := EndBehaviour]} None None ∅)
             !! state_id EndBehaviour)
  ∧ _register_states state_id "done" (mkFSM {["end" := EndBehaviour]} None None ∅)
      setup_state_classes
    = Err (ValueError "State name already existing.").
Proof.
  assert (Hc : EndBehaviour ∈ setup_state_classes)
    by (do 8 apply list_elem_of_further; apply list_elem_of_here).
  assert (Hs : is_Some (name_to_state (mkFSM {["end" := EndBehaviour]} None None ∅)
                        !! state_id EndBehaviour))
    by (eexists; reflexivity).
  split; [exact Hc|]. split; [exact Hs|].
  exact (register_states_on_used_machine state_id "done" _ setup_state_classes
           EndBehaviour Hc Hs).
Defined.

Lemma chain_writes_only_in_deploy_and_finalize_witness :
  exec (async_act Z id example_get_safe_tx FinalizeBehaviour (example_context "0xA"))
       (example_finalize_run "0xA").1 (example_finalize_run "0xA").2
  ∧ chain_writes (example_finalize_run "0xA").1 ≠ 0%nat
  ∧ (FinalizeBehaviour = DeploySafeBehaviour
     ∧ length (deploy_requests (example_finalize_run "0xA").1) = 1%nat
     ∧ (length (raw_transactions (example_finalize_run "0xA").1) ≤ 1)%nat
     ∨ FinalizeBehaviour = FinalizeBehaviour
       ∧ deploy_requests (example_finalize_run "0xA").1 = []
       ∧ length (raw_transactions (example_finalize_run "0xA").1) = 1%nat).
Proof.
  assert (H : exec (async_act Z id example_get_safe_tx FinalizeBehaviour
                      (example_context "0xA"))
                   (example_finalize_run "0xA").1 (example_finalize_run "0xA").2)
    by apply run_exec.
  assert (Hw : chain_writes (example_finalize_run "0xA").1 ≠ 0%nat)
    by (vm_compute; discriminate).
  split; [exact H|]. split; [exact Hw|].
  exact (chain_writes_only_in_deploy_and_finalize id example_get_safe_tx
           FinalizeBehaviour (example_context "0xA") _ _ H Hw).
Defined.
